(** * WebhookTester: the submission handler and the response classifier

    A shallow embedding of [src/components/WebhookTester.tsx]: the byte-size
    formatter [formatFileSize], the submission handler [sendWebhook] with
    the content-type classification it performs, the save action
    [downloadFile], and the component's guard on the submit button.

    Platform objects the component only calls into ([fetch], [Response],
    [Headers], [String.prototype.includes], [String.prototype.match],
    [JSON.parse], the UTF-8 decoder behind [Response.text]) are modelled in
    the first modules, each after the standard that defines it. *)

From Stdlib Require Import ZArith NArith Lia Bool Ascii String List.
From Stdlib Require Import Strings.Byte DecimalString.
From stdpp Require Import base option list strings gmap.

Local Open Scope string_scope.
Local Open Scope list_scope.

(* ===================================================================== *)
(** ** JavaScript strings of byte characters

    Header names and values are byte strings: every character is one of the
    256 [ascii] values, so Rocq's [string] holds them exactly. *)
(* ===================================================================== *)

Module JsString.

(** [s.startsWith(t)] *)
Fixpoint startsWith (s t : string) {struct t} : bool :=
  match t, s with
  | EmptyString, _ => true
  | String c t', String d s' => if Ascii.eqb c d then startsWith s' t' else false
  | String _ _, EmptyString => false
  end.

(** [s.includes(t)]: [t] occurs in [s] at some position. *)
Fixpoint includes (s t : string) : bool :=
  if startsWith s t then true
  else match s with
       | EmptyString => false
       | String _ s' => includes s' t
       end.

(** [t] occurs somewhere inside [s]. *)
Definition occurs_in (t s : string) : Prop :=
  exists pre post, s = pre +:+ t +:+ post.

(** Truthiness of a string: only the empty string is falsy. *)
Definition truthy (s : string) : bool :=
  match s with EmptyString => false | String _ _ => true end.

(** [s || d] on strings. *)
Definition or_else (s d : string) : string := if truthy s then s else d.

(** ASCII lower-casing of one character and of a string (header names are
    matched byte-case-insensitively). *)
Definition lower_ascii (c : ascii) : ascii :=
  let n := N_of_ascii c in
  if (65 <=? n)%N && (n <=? 90)%N then ascii_of_N (n + 32) else c.

Fixpoint toLowerCase (s : string) : string :=
  match s with
  | EmptyString => EmptyString
  | String c s' => String (lower_ascii c) (toLowerCase s')
  end.

End JsString.

(* ===================================================================== *)
(** ** Regular expressions, as [String.prototype.match] runs them

    A backtracking matcher for the fragment of ECMAScript patterns the
    component uses: literal characters, a negated one-character class,
    concatenation, the greedy quantifiers [?] and [+], and capture groups.
    [run r s caps] lists, in the order a backtracking engine tries them,
    every way [r] can match a prefix of [s]: the text left over and the
    captures made. *)
(* ===================================================================== *)

Module RegExp.

Inductive re : Type :=
| Eps                      (* the empty pattern *)
| Lit (c : ascii)          (* a literal character *)
| NotChar (c : ascii)      (* [^c] *)
| Cat (r1 r2 : re)         (* r1 r2 *)
| Opt (r : re)             (* r?  (greedy) *)
| Plus (r : re)            (* r+  (greedy) *)
| Group (i : nat) (r : re) (* ( r ), the i-th capture group *).

(** Captures: the most recent binding of a group comes first. *)
Definition captures : Type := list (nat * string).

Fixpoint capture (i : nat) (caps : captures) : option string :=
  match caps with
  | [] => None
  | (j, s) :: caps' => if Nat.eqb i j then Some s else capture i caps'
  end.

(** The characters of [s] in front of its suffix [rest]. *)
Definition consumed (s rest : string) : string :=
  String.substring 0 (String.length s - String.length rest) s.

(** [r+] given how one iteration of [r] runs: one iteration, then as many
    more as possible before giving one up.  An iteration that consumes
    nothing is not repeated; [fuel] bounds the iterations by the length
    of the text. *)
Fixpoint plus_loop (iter : string -> captures -> list (string * captures))
    (fuel : nat) (s : string) (caps : captures)
  : list (string * captures) :=
  flat_map
    (fun '(s1, c1) =>
       match fuel with
       | O => [(s1, c1)]
       | S fuel' =>
           if Nat.ltb (String.length s1) (String.length s)
           then plus_loop iter fuel' s1 c1 ++ [(s1, c1)]
           else [(s1, c1)]
       end)
    (iter s caps).

Fixpoint run (r : re) (s : string) (caps : captures) {struct r}
  : list (string * captures) :=
  match r with
  | Eps => [(s, caps)]
  | Lit c =>
      match s with
      | String d s' => if Ascii.eqb c d then [(s', caps)] else []
      | EmptyString => []
      end
  | NotChar c =>
      match s with
      | String d s' => if Ascii.eqb c d then [] else [(s', caps)]
      | EmptyString => []
      end
  | Cat r1 r2 =>
      flat_map (fun '(s1, c1) => run r2 s1 c1) (run r1 s caps)
  | Opt r1 => run r1 s caps ++ [(s, caps)]
  | Plus r1 => plus_loop (run r1) (String.length s) s caps
  | Group i r1 =>
      map (fun '(s1, c1) => (s1, (i, consumed s s1) :: c1)) (run r1 s caps)
  end.

(** The pattern that matches the characters of [s] one after the other. *)
Fixpoint lits (s : string) : re :=
  match s with
  | EmptyString => Eps
  | String c s' => Cat (Lit c) (lits s')
  end.

(** [s.match(r)] for a pattern without the [g] flag: the first start
    position at which [r] matches, and there the first way it matches.
    The result is the captures ([None] stands for [null]). *)
Fixpoint exec (r : re) (s : string) : option captures :=
  match run r s [] with
  | (_, caps) :: _ => Some caps
  | [] =>
      match s with
      | EmptyString => None
      | String _ s' => exec r s'
      end
  end.

(** The double quote character, code 34. *)
Definition quote : ascii :=
  Ascii false true false false false true false false.

(** A result of a match that has bound group 1 to a non-empty name on top
    of the captures [caps]. *)
Definition binds_name (caps : captures) (res : string * captures) : Prop :=
  exists name, snd res = (1, name) :: caps /\ name <> "".

(** [s] between double quotes. *)
Definition quoted (s : string) : string :=
  String quote (s +:+ String quote "").

(** [rest] cannot continue a run of characters other than the quote: it is
    empty or starts with a quote. *)
Definition stops (rest : string) : Prop :=
  rest = "" \/ exists rest', rest = String quote rest'.

End RegExp.


(* ===================================================================== *)
(** ** Text: UTF-16 strings and the platform's UTF-8 decoder

    A JavaScript string is a sequence of 16-bit code units; a code point
    above U+FFFF is a pair of surrogate code units.  [Response.text()] runs
    the Encoding Standard's "UTF-8 decode": a leading byte-order mark
    EF BB BF is dropped, then the UTF-8 decoder runs with malformed input
    replaced by U+FFFD, and the scalar values it yields make the string.
    [TextEncoder.encode] goes back: the string's scalar values (a lone
    surrogate counts as U+FFFD) are UTF-8 encoded.  Bytes, code units and
    code points are numbers in [N]; [x * 64 + b mod 64] spells the
    standard's [(x << 6) | (b & 0x3F)]. *)
(* ===================================================================== *)

Module Utf16.
Local Open Scope N_scope.

(** A Unicode scalar value: a code point that is not a surrogate. *)
Definition is_scalar (cp : N) : bool :=
  (cp <? 0xD800) || ((0xE000 <=? cp) && (cp <=? 0x10FFFF)).

Definition is_lead (u : N) : bool := (0xD800 <=? u) && (u <=? 0xDBFF).
Definition is_trail (u : N) : bool := (0xDC00 <=? u) && (u <=? 0xDFFF).

(** The code units of a scalar value. *)
Definition of_scalar (cp : N) : list N :=
  if cp <? 0x10000 then [cp]
  else [0xD800 + (cp - 0x10000) / 1024; 0xDC00 + (cp - 0x10000) mod 1024].

Definition of_scalars (t : list N) : list N := flat_map of_scalar t.

(** The scalar values of a string; a surrogate that is not part of a pair
    is read as U+FFFD. *)
Fixpoint to_scalars (us : list N) : list N :=
  match us with
  | [] => []
  | u :: rest =>
      if is_lead u then
        match rest with
        | v :: rest' =>
            if is_trail v
            then (0x10000 + (u - 0xD800) * 1024 + (v - 0xDC00))
                   :: to_scalars rest'
            else 0xFFFD :: to_scalars rest
        | [] => [0xFFFD]
        end
      else if is_trail u then 0xFFFD :: to_scalars rest
      else u :: to_scalars rest
  end.

End Utf16.

Module Utf8.
Local Open Scope N_scope.

(** The decoder's variables. *)
Record dstate : Type := mkD {
  code_point : N;
  bytes_seen : N;
  bytes_needed : N;
  lower_boundary : N;
  upper_boundary : N
}.

Definition dinit : dstate := mkD 0 0 0 0x80 0xBF.

(** What the handler yields for one byte. *)
Inductive emit : Type :=
| Continue (st : dstate)   (* nothing yet, keep going in [st] *)
| Point (cp : N)           (* a code point; the state is reset *)
| Error                    (* malformed; the state is reset *)
| ErrorRestore             (* malformed; the state is reset and the byte is
                              handled again *).

Definition between (lo b hi : N) : bool := (lo <=? b) && (b <=? hi).

(** The handler when no sequence is open ([bytes_needed = 0]). *)
Definition lead (b : N) : emit :=
  if between 0x00 b 0x7F then Point b
  else if between 0xC2 b 0xDF then Continue (mkD (b mod 32) 0 1 0x80 0xBF)
  else if between 0xE0 b 0xEF then
    Continue (mkD (b mod 16) 0 2
                  (if b =? 0xE0 then 0xA0 else 0x80)
                  (if b =? 0xED then 0x9F else 0xBF))
  else if between 0xF0 b 0xF4 then
    Continue (mkD (b mod 8) 0 3
                  (if b =? 0xF0 then 0x90 else 0x80)
                  (if b =? 0xF4 then 0x8F else 0xBF))
  else Error.

Definition handler (st : dstate) (b : N) : emit :=
  if bytes_needed st =? 0 then lead b
  else if negb (between (lower_boundary st) b (upper_boundary st))
  then ErrorRestore
  else
    let cp := code_point st * 64 + b mod 64 in
    let seen := bytes_seen st + 1 in
    if seen =? bytes_needed st then Point cp
    else Continue (mkD cp seen (bytes_needed st) 0x80 0xBF).

(** Running the decoder over a stream; [None] marks an error. *)
Fixpoint decode_from (st : dstate) (bs : list N) : list (option N) :=
  match bs with
  | [] => if bytes_needed st =? 0 then [] else [None]
  | b :: bs' =>
      match handler st b with
      | Continue st' => decode_from st' bs'
      | Point cp => Some cp :: decode_from dinit bs'
      | Error => None :: decode_from dinit bs'
      | ErrorRestore =>
          None ::
          match lead b with
          | Continue st' => decode_from st' bs'
          | Point cp => Some cp :: decode_from dinit bs'
          | Error | ErrorRestore => None :: decode_from dinit bs'
          end
      end
  end.

Definition decode_items (bs : list N) : list (option N) :=
  decode_from dinit bs.

(** No item is an error. *)
Definition no_error (items : list (option N)) : bool :=
  forallb (fun o => match o with Some _ => true | None => false end) items.

(** The stream holds no malformed sequence. *)
Definition well_formed (bs : list N) : bool := no_error (decode_items bs).

(** Error mode "replacement". *)
Definition replacement (o : option N) : N :=
  match o with Some cp => cp | None => 0xFFFD end.

Definition has_bom (bs : list N) : bool :=
  match bs with
  | b0 :: b1 :: b2 :: _ => (b0 =? 0xEF) && (b1 =? 0xBB) && (b2 =? 0xBF)
  | _ => false
  end.

Definition strip_bom (bs : list N) : list N :=
  if has_bom bs then skipn 3 bs else bs.

(** "UTF-8 decode" on numbers: the scalar values of the text. *)
Definition decode_N (bs : list N) : list N :=
  map replacement (decode_items (strip_bom bs)).

(** The UTF-8 encoder, one scalar value at a time. *)
Definition encode_point (cp : N) : list N :=
  if cp <? 0x80 then [cp]
  else if cp <? 0x800 then [0xC0 + cp / 64; 0x80 + cp mod 64]
  else if cp <? 0x10000 then
    [0xE0 + cp / 4096; 0x80 + (cp / 64) mod 64; 0x80 + cp mod 64]
  else
    [0xF0 + cp / 262144; 0x80 + (cp / 4096) mod 64;
     0x80 + (cp / 64) mod 64; 0x80 + cp mod 64].

Definition encode_N (t : list N) : list N := flat_map encode_point t.

(** Bytes in and out. *)
Definition byte_of_N (n : N) : byte :=
  match Byte.of_N n with Some b => b | None => x00 end.

(** [Response.text()] on a body: the string, as code units. *)
Definition decode (body : list byte) : list N :=
  Utf16.of_scalars (decode_N (map Byte.to_N body)).

(** [new TextEncoder().encode(s)] on a string of code units. *)
Definition encode (s : list N) : list byte :=
  map byte_of_N (encode_N (Utf16.to_scalars s)).

(** Payloads: well-formed UTF-8, a leading byte-order mark, ASCII only. *)
Definition valid (body : list byte) : bool :=
  well_formed (map Byte.to_N body).

Definition starts_with_bom (body : list byte) : bool :=
  has_bom (map Byte.to_N body).

Definition is_ascii (body : list byte) : bool :=
  forallb (fun b => Byte.to_N b <? 0x80) body.

(** The decoder is in state [st] after the bytes [p] of a sequence that is
    well formed so far. *)
Inductive opened : dstate -> list N -> Prop :=
| opened_none : opened dinit []
| opened_2 b0 :
    0xC2 <= b0 <= 0xDF ->
    opened (mkD (b0 mod 32) 0 1 0x80 0xBF) [b0]
| opened_3 b0 :
    0xE0 <= b0 <= 0xEF ->
    opened (mkD (b0 mod 16) 0 2
                (if b0 =? 0xE0 then 0xA0 else 0x80)
                (if b0 =? 0xED then 0x9F else 0xBF)) [b0]
| opened_3_1 b0 b1 :
    0xE0 <= b0 <= 0xEF ->
    (if b0 =? 0xE0 then 0xA0 else 0x80) <= b1
      <= (if b0 =? 0xED then 0x9F else 0xBF) ->
    opened (mkD (b0 mod 16 * 64 + b1 mod 64) 1 2 0x80 0xBF) [b0; b1]
| opened_4 b0 :
    0xF0 <= b0 <= 0xF4 ->
    opened (mkD (b0 mod 8) 0 3
                (if b0 =? 0xF0 then 0x90 else 0x80)
                (if b0 =? 0xF4 then 0x8F else 0xBF)) [b0]
| opened_4_1 b0 b1 :
    0xF0 <= b0 <= 0xF4 ->
    (if b0 =? 0xF0 then 0x90 else 0x80) <= b1
      <= (if b0 =? 0xF4 then 0x8F else 0xBF) ->
    opened (mkD (b0 mod 8 * 64 + b1 mod 64) 1 3 0x80 0xBF) [b0; b1]
| opened_4_2 b0 b1 b2 :
    0xF0 <= b0 <= 0xF4 ->
    (if b0 =? 0xF0 then 0x90 else 0x80) <= b1
      <= (if b0 =? 0xF4 then 0x8F else 0xBF) ->
    0x80 <= b2 <= 0xBF ->
    opened (mkD ((b0 mod 8 * 64 + b1 mod 64) * 64 + b2 mod 64) 2 3 0x80 0xBF)
           [b0; b1; b2].

End Utf8.


(* ===================================================================== *)
(** ** Platform objects: [Headers], plain objects, [File], [Response] *)
(* ===================================================================== *)

Module Headers.

(** A [Headers] object, held as the (name, value) pairs that iterating it
    visits, in visiting order. *)
Definition t : Type := list (string * string).

Definition name_matches (name : string) (kv : string * string) : bool :=
  String.eqb (JsString.toLowerCase (fst kv)) (JsString.toLowerCase name).

Fixpoint join (sep : string) (vs : list string) : string :=
  match vs with
  | [] => EmptyString
  | [v] => v
  | v :: vs' => v +:+ sep +:+ join sep vs'
  end.

(** [h.get(name)]: the values of the headers named [name], in any letter
    case, joined by a comma and a space; [None] is [null]. *)
Definition get (h : t) (name : string) : option string :=
  match map snd (List.filter (name_matches name) h) with
  | [] => None
  | vs => Some (join ", " vs)
  end.

(** The value of the last pair named [k] among the pairs visited. *)
Definition last_value (k : string) (h : t) : option string :=
  fold_left (fun acc kv => if String.eqb (fst kv) k then Some (snd kv) else acc)
            h None.

End Headers.

Module JsObject.

(** An object created by [{}] and used with string keys and string
    values: its own properties.  Assigning to the key [__proto__] reaches
    the setter inherited from [Object.prototype], which ignores a value
    that is neither an object nor [null], so no own property is made. *)
Definition set (k v : string) (o : gmap string string) : gmap string string :=
  if String.eqb k "__proto__" then o else <[k := v]> o.

End JsObject.

(** A user-selected file. *)
Record File : Type := mkFile {
  file_name : string;
  file_size : N;
  file_type : string;
  file_bytes : list byte
}.

(** A [FormData]: the appended (field name, file) entries. *)
Definition FormData : Type := list (string * File).

(** A fetched [Response]: status, headers and the bytes of the body, which
    is taken to arrive in full. *)
Record Response : Type := mkResponse {
  res_status : Z;
  res_headers : Headers.t;
  res_body : list byte
}.

(* ===================================================================== *)
(** ** [formatFileSize]

    [bytes] is a file size, a natural number, and the arithmetic is exact:
    [Math.floor(Math.log(bytes) / Math.log(k))] is taken as the index of
    the largest power of [k] that does not exceed [bytes], and the quotient
    [bytes / k^i] is held as numerator and denominator.  The source
    computes in binary floating point, where the quotient of a size below
    2^53 by a power of 1024 is exact as well; the two logarithms are
    rounded, which can move the index only for sizes within rounding
    distance of a power of [k]: it does not below 2^49, and it does just
    below 2^50, where the source takes the index 5. *)
(* ===================================================================== *)

Module Format.
Local Open Scope N_scope.

(** Decimal numeral of a natural number. *)
Definition decimal (n : N) : string :=
  DecimalString.NilZero.string_of_uint (N.to_uint n).

(** The largest [i] with [k^i <= n], for [k >= 2] and [n >= 1]. *)
Fixpoint floor_log_fuel (fuel : nat) (k n : N) : N :=
  match fuel with
  | O => 0
  | S fuel' => if n <? k then 0 else 1 + floor_log_fuel fuel' k (n / k)
  end.

Definition floor_log (k n : N) : N :=
  floor_log_fuel (S (N.to_nat (N.log2 n))) k n.

(** [(num / den).toFixed(2)]: the integer [n] for which [n / 100] is
    nearest to the quotient, the larger one on a tie, written with two
    fractional digits. *)
Definition hundredths (num den : N) : N := (200 * num + den) / (2 * den).

Definition two_digits (n : N) : string :=
  if n <? 10 then "0" +:+ decimal n else decimal n.

Definition toFixed2 (num den : N) : string :=
  let n := hundredths num den in
  decimal (n / 100) +:+ "." +:+ two_digits (n mod 100).

(** Reversal of a string, for trimming at its end. *)
Fixpoint rev_string (acc s : string) : string :=
  match s with
  | EmptyString => acc
  | String c s' => rev_string (String c acc) s'
  end.

Fixpoint drop_zeros (s : string) : string :=
  match s with
  | String "0"%char s' => drop_zeros s'
  | _ => s
  end.

Definition drop_dot (s : string) : string :=
  match s with
  | String "."%char s' => s'
  | _ => s
  end.

(** [parseFloat(s) + ''] for [s] a numeral with a fraction of at most two
    digits: the number read back is written in the shortest form, which
    is [s] without the zeros that end its fraction, and without the point
    when no fraction is left. *)
Definition parseFloat_to_string (s : string) : string :=
  rev_string "" (drop_dot (drop_zeros (rev_string "" s))).

Definition sizes : list string := ["Bytes"; "KB"; "MB"; "GB"].

(** [sizes[i]] in a string concatenation: past the end the element is
    [undefined]. *)
Definition sizes_at (i : N) : string := nth (N.to_nat i) sizes "undefined".

(** The unit a size is printed with; from 1024^4 on the list of units is
    read past its end. *)
Definition unit_of (bytes : N) : string :=
  if bytes <? 1024 then "Bytes"
  else if bytes <? 1024 ^ 2 then "KB"
  else if bytes <? 1024 ^ 3 then "MB"
  else if bytes <? 1024 ^ 4 then "GB"
  else "undefined".

Definition formatFileSize (bytes : N) : string :=
  if bytes =? 0 then "0 Bytes"
  else
    let k := 1024 in
    let i := floor_log k bytes in
    parseFloat_to_string (toFixed2 bytes (k ^ i)) +:+ " " +:+ sizes_at i.

End Format.


(* ===================================================================== *)
(** ** The component: state, effects, [sendWebhook], [downloadFile] *)
(* ===================================================================== *)

Section Component.

(** [JSON.parse]: the parsed value of a text, or [None] where it throws a
    [SyntaxError]. *)
Context {JsonValue : Type} (JSON_parse : list N -> option JsonValue).

(** What [data] can hold: a [Blob], a parsed value, or a string. *)
Inductive Data : Type :=
| DBlob (bytes : list byte)
| DJson (v : JsonValue)
| DText (t : list N).

Record WebhookResponse : Type := mkWebhookResponse {
  status : Z;
  data : Data;
  headers : gmap string string;
  isFile : bool;
  fileName : string;
  contentType : string
}.

(** The component's state variables. *)
Record State : Type := mkState {
  webhookUrl : string;
  selectedFile : option File;
  isLoading : bool;
  response : option WebhookResponse;
  isDragging : bool
}.

Definition initial : State := mkState "" None false None false.

Definition with_isLoading (b : bool) (s : State) : State :=
  mkState (webhookUrl s) (selectedFile s) b (response s) (isDragging s).

Definition with_response (r : WebhookResponse) (s : State) : State :=
  mkState (webhookUrl s) (selectedFile s) (isLoading s) (Some r)
          (isDragging s).

Record Toast : Type := mkToast {
  title : string;
  description : string;
  destructive : bool
}.

(** What the handler does to the outside, in the order it does it. *)
Inductive effect : Type :=
| EToast (t : Toast)
| ESetIsLoading (b : bool)
| EFetch (url method : string) (body : FormData)   (* fetch(url, {...}) *)
| EBlob                                            (* res.blob() *)
| EJson                                            (* res.json() *)
| EText                                            (* res.text() *)
| ESetResponse (r : WebhookResponse)
| EConsoleError.

(** The handler runs over the state and the log of effects; a step
    returns a value or throws. *)
Definition world : Type := State * list effect.

Inductive outcome (A : Type) : Type :=
| Ok (a : A)
| Thrown.
Arguments Ok {A} a.
Arguments Thrown {A}.

Definition M (A : Type) : Type := world -> outcome A * world.

Definition ret {A} (a : A) : M A := fun w => (Ok a, w).

Definition bind {A B} (m : M A) (f : A -> M B) : M B :=
  fun w => match m w with
           | (Ok a, w1) => f a w1
           | (Thrown, w1) => (Thrown, w1)
           end.

Definition throw {A} : M A := fun w => (Thrown, w).

(** [try { body } catch { handler } finally { fin }] *)
Definition try_catch_finally (body handler fin : M unit) : M unit :=
  fun w => match body w with
           | (Ok _, w1) => fin w1
           | (Thrown, w1) =>
               match handler w1 with
               | (Ok _, w2) => fin w2
               | (Thrown, w2) =>
                   match fin w2 with
                   | (_, w3) => (Thrown, w3)
                   end
               end
           end.

Notation "x <- m ;; k" := (bind m (fun x => k))
  (at level 100, m at next level, right associativity).
Notation "m ;;; k" := (bind m (fun _ => k))
  (at level 100, right associativity).

Definition do (e : effect) : M unit :=
  fun '(s, log) => (Ok tt, (s, log ++ [e])).

Definition toast (t : Toast) : M unit := do (EToast t).

Definition setIsLoading (b : bool) : M unit :=
  fun '(s, log) => (Ok tt, (with_isLoading b s, log ++ [ESetIsLoading b])).

Definition setResponse (r : WebhookResponse) : M unit :=
  fun '(s, log) => (Ok tt, (with_response r s, log ++ [ESetResponse r])).

(** The network: what the POST of a form to a URL resolves with, or [None]
    where [fetch] rejects. *)
Definition network : Type := string -> FormData -> option Response.

Definition fetch (net : network) (url method : string) (body : FormData)
  : M Response :=
  do (EFetch url method body) ;;;
  match net url body with
  | Some res => ret res
  | None => throw
  end.

(** The three body readers. *)
Definition blob (res : Response) : M (list byte) :=
  do EBlob ;;; ret (res_body res).

Definition json (res : Response) : M JsonValue :=
  do EJson ;;;
  match JSON_parse (Utf8.decode (res_body res)) with
  | Some v => ret v
  | None => throw
  end.

Definition text (res : Response) : M (list N) :=
  do EText ;;; ret (Utf8.decode (res_body res)).

(** The pattern of [disposition.match]: the characters [filename=], an
    optional double quote, capture group 1 of one or more characters other
    than a double quote, and an optional double quote. *)
Definition filename_re : RegExp.re :=
  RegExp.Cat (RegExp.lits "filename=")
    (RegExp.Cat (RegExp.Opt (RegExp.Lit RegExp.quote))
       (RegExp.Cat
          (RegExp.Group 1 (RegExp.Plus (RegExp.NotChar RegExp.quote)))
          (RegExp.Opt (RegExp.Lit RegExp.quote)))).

(** [res.headers.get('content-type') || ''] *)
Definition contentType_of (res : Response) : string :=
  match Headers.get (res_headers res) "content-type" with
  | Some ct => JsString.or_else ct ""
  | None => ""
  end.

Definition isFile_of (ct : string) : bool :=
  JsString.includes ct "application/"
  && negb (JsString.includes ct "json")
  && negb (JsString.includes ct "text").

(** The file name the binary branch leaves in [fileName]. *)
Definition fileName_of (res : Response) : string :=
  match Headers.get (res_headers res) "content-disposition" with
  | Some disposition =>
      if JsString.truthy disposition then
        match RegExp.exec filename_re disposition with
        | Some m =>
            match RegExp.capture 1 m with
            | Some name => name
            | None => ""        (* never: group 1 is in every match *)
            end
        | None => "download"
        end
      else ""
  | None => ""
  end.

(** The [headers] object filled by [res.headers.forEach]. *)
Definition collect_headers (h : Headers.t) : gmap string string :=
  fold_left (fun acc kv => JsObject.set (fst kv) (snd kv) acc) h ∅.

Definition decimalZ (z : Z) : string :=
  DecimalString.NilZero.string_of_int (Z.to_int z).

Definition validation_toast : Toast :=
  mkToast "Erro" "Por favor, preencha a URL e selecione um arquivo" true.

Definition success_toast (st : Z) : Toast :=
  mkToast "Sucesso!" ("Webhook enviado - Status: " +:+ decimalZ st) false.

Definition failure_toast : Toast :=
  mkToast "Erro" "Falha ao enviar webhook" true.

(** The body of the [try] block. *)
Definition request (net : network) (url : string) (formData : FormData)
  : M unit :=
  res <- fetch net url "POST" formData ;;
  let contentType := contentType_of res in
  let isFile := isFile_of contentType in
  df <-
    (if isFile then
       b <- blob res ;;
       ret (DBlob b, fileName_of res)
     else if JsString.includes contentType "json" then
       v <- json res ;;
       ret (DJson v, "")
     else
       t <- text res ;;
       ret (DText t, "")) ;;
  let headers := collect_headers (res_headers res) in
  setResponse
    (mkWebhookResponse (res_status res) (fst df) headers isFile (snd df)
                       contentType) ;;;
  toast (success_toast (res_status res)).

(** The [try] statement: the request, the [catch] block, the [finally]
    block. *)
Definition attempt (net : network) (url : string) (formData : FormData)
  : M unit :=
  try_catch_finally
    (request net url formData)
    (toast failure_toast ;;; do EConsoleError)
    (setIsLoading false).

Definition sendWebhook (net : network) : M unit :=
  fun w =>
    let s := fst w in
    match JsString.truthy (webhookUrl s), selectedFile s with
    | true, Some file =>
        (setIsLoading true ;;;
         let formData : FormData := [("file", file)] in
         attempt net (webhookUrl s) formData) w
    | _, _ => (toast validation_toast ;;; ret tt) w
    end.

(** Running the handler from a state, with an empty log. *)
Definition run_sendWebhook (net : network) (s : State) : State * list effect :=
  snd (sendWebhook net (s, [])).

(** [response.fileName || 'download']: the name the result panel shows
    and [downloadFile] gives to the saved file. *)
Definition shown_fileName (r : WebhookResponse) : string :=
  JsString.or_else (fileName r) "download".

(** [downloadFile]: the name and the blob handed to the browser's save
    action, when the current result is a file. *)
Definition downloadFile (s : State) : option (string * list byte) :=
  match response s with
  | Some r =>
      if isFile r then
        match data r with
        | DBlob b => Some (shown_fileName r, b)
        | _ => None
        end
      else None
  | None => None
  end.

(** The submit button's [disabled] attribute, and a click on it. *)
Definition disabled (s : State) : bool :=
  negb (JsString.truthy (webhookUrl s))
  || match selectedFile s with Some _ => false | None => true end
  || isLoading s.

Definition click (net : network) (s : State) : State * list effect :=
  if disabled s then (s, []) else run_sendWebhook net s.

(** The request the handler sends from [s] when [file] is selected. *)
Definition sent (s : State) (file : File) : effect :=
  EFetch (webhookUrl s) "POST" [("file", file)].

(** The result assembled for [res] with body value [d] and file name [n]. *)
Definition assembled (res : Response) (d : Data) (n : string)
  : WebhookResponse :=
  mkWebhookResponse (res_status res) d (collect_headers (res_headers res))
                    (isFile_of (contentType_of res)) n (contentType_of res).

(** The result the handler stores when [fetch] settles with [outcome], if
    it stores one. *)
Definition stored_for (outcome : option Response) : option WebhookResponse :=
  match outcome with
  | None => None
  | Some res =>
      if isFile_of (contentType_of res) then
        Some (assembled res (DBlob (res_body res)) (fileName_of res))
      else if JsString.includes (contentType_of res) "json" then
        match JSON_parse (Utf8.decode (res_body res)) with
        | Some v => Some (assembled res (DJson v) "")
        | None => None
        end
      else Some (assembled res (DText (Utf8.decode (res_body res))) "")
  end.

(** The state once [r] is stored and loading is over. *)
Definition resolved (s : State) (r : WebhookResponse) : State :=
  with_isLoading false (with_response r (with_isLoading true s)).

(** The state once a request failed and loading is over. *)
Definition failed (s : State) : State :=
  with_isLoading false (with_isLoading true s).

End Component.

Arguments Data : clear implicits.
Arguments WebhookResponse : clear implicits.
Arguments State : clear implicits.
Arguments effect : clear implicits.
Arguments world : clear implicits.
Arguments Ok {A} a.
Arguments Thrown {A}.


(* ===================================================================== *)
(** ** The component's other event handlers, and its reachable states *)
(* ===================================================================== *)

Section Events.

Context {JsonValue : Type} (JSON_parse : list N -> option JsonValue).

Definition with_webhookUrl (u : string) (s : State JsonValue)
  : State JsonValue :=
  mkState u (selectedFile s) (isLoading s) (response s) (isDragging s).

Definition with_selectedFile (f : File) (s : State JsonValue)
  : State JsonValue :=
  mkState (webhookUrl s) (Some f) (isLoading s) (response s) (isDragging s).

Definition with_isDragging (b : bool) (s : State JsonValue)
  : State JsonValue :=
  mkState (webhookUrl s) (selectedFile s) (isLoading s) (response s) b.

Definition handleDragOver (s : State JsonValue) : State JsonValue :=
  with_isDragging true s.

Definition handleDragLeave (s : State JsonValue) : State JsonValue :=
  with_isDragging false s.

Definition handleDrop (files : list File) (s : State JsonValue)
  : State JsonValue :=
  let s1 := with_isDragging false s in
  match files with
  | f :: _ => with_selectedFile f s1
  | [] => s1
  end.

(** [e.target.files] may be [null]. *)
Definition handleFileSelect (files : option (list File))
    (s : State JsonValue) : State JsonValue :=
  match files with
  | Some (f :: _) => with_selectedFile f s
  | _ => s
  end.

(** What can happen to the mounted component. *)
Inductive event : Type :=
| UrlChange (u : string)
| DragOver
| DragLeave
| Drop (files : list File)
| FileSelect (files : option (list File))
| ClickSend (net : network)     (* a click on the submit button; [net] is
                                   how the network answers the request *).

Definition step (e : event) (s : State JsonValue) : State JsonValue :=
  match e with
  | UrlChange u => with_webhookUrl u s
  | DragOver => handleDragOver s
  | DragLeave => handleDragLeave s
  | Drop files => handleDrop files s
  | FileSelect files => handleFileSelect files s
  | ClickSend net => fst (click JSON_parse net s)
  end.

(** The states the component can be in when no request is outstanding.  A
    delivered click runs the handler to its end in one step; the run in two
    parts, with other events in between, is set against it below. *)
Inductive reachable : State JsonValue -> Prop :=
| reach_initial : reachable initial
| reach_step e s : reachable s -> reachable (step e s).

(** *** The handler across its [await]

    Seen from the event loop a run of [sendWebhook] falls in two parts: up
    to the call of [fetch], and from the settling of that call on.  Between
    the two the request is outstanding and the other events may happen. *)

(** The first part: validation, and for a complete form the loading flag
    and the request that goes out. *)
Definition begin (s : State JsonValue)
  : State JsonValue * option (string * FormData) :=
  match JsString.truthy (webhookUrl s), selectedFile s with
  | true, Some file =>
      (with_isLoading true s, Some (webhookUrl s, [("file", file)]))
  | _, _ => (s, None)
  end.

(** The second part, once [fetch] has settled with [outcome]: the [try]
    block from there on, [catch] and [finally]. *)
Definition complete (outcome : option Response) (rq : string * FormData)
    (s : State JsonValue) : State JsonValue :=
  fst (snd (attempt JSON_parse (fun _ _ => outcome) (fst rq) (snd rq)
                    (s, []))).

(** The component with the request that is outstanding, if any. *)
Record Mounted : Type := mkMounted {
  comp : State JsonValue;
  pending : option (string * FormData)
}.

Inductive occurrence : Type :=
| User (e : event)                       (* an event other than the click *)
| Click                                  (* a click on the submit button *)
| Settle (outcome : option Response)     (* the outstanding [fetch] settles *).

Definition is_click (e : event) : bool :=
  match e with ClickSend _ => true | _ => false end.

Definition occur (o : occurrence) (m : Mounted) : Mounted :=
  match o with
  | User e => if is_click e then m else mkMounted (step e (comp m)) (pending m)
  | Click =>
      if disabled (comp m) then m
      else mkMounted (fst (begin (comp m))) (snd (begin (comp m)))
  | Settle outcome =>
      match pending m with
      | Some rq => mkMounted (complete outcome rq (comp m)) None
      | None => m
      end
  end.

Inductive mounted_reachable : Mounted -> Prop :=
| mounted_initial : mounted_reachable (mkMounted initial None)
| mounted_occur o m : mounted_reachable m -> mounted_reachable (occur o m).

End Events.

(* ===================================================================== *)
(** ** Samples used in the examples below *)
(* ===================================================================== *)

Module Sample.

(** A parser for the three literals of JSON, enough to run the handler on
    small bodies; every other text is a syntax error. *)
Inductive literal : Type := JNull | JTrue | JFalse.

Definition parse_literal (t : list N) : option literal :=
  match t with
  | [110; 117; 108; 108]%N => Some JNull
  | [116; 114; 117; 101]%N => Some JTrue
  | [102; 97; 108; 115; 101]%N => Some JFalse
  | _ => None
  end.

Definition file : File := mkFile "a.txt" 3 "text/plain" [x41; x42; x43].

(** URL typed and file chosen, nothing sent yet. *)
Definition ready : State literal :=
  mkState "https://example.test/hook" (Some file) false None false.

Definition answers (res : Response) : network := fun _ _ => Some res.
Definition rejects : network := fun _ _ => None.

Definition pdf : Response :=
  mkResponse 200
    [("content-disposition",
      "attachment; filename=" +:+ RegExp.quoted "report.pdf");
     ("content-type", "application/pdf")]
    [x25; x50; x44; x46].

Definition pdf_unnamed : Response :=
  mkResponse 200 [("content-type", "application/pdf")] [x25; x50; x44; x46].

(** [{oops] with a JSON content type. *)
Definition bad_json : Response :=
  mkResponse 200 [("content-type", "application/json")]
             [x7b; x6f; x6f; x70; x73].

Definition plain : Response :=
  mkResponse 200 [("content-type", "text/plain; charset=utf-8")]
             [x68; x69].

Definition untyped : Response :=
  mkResponse 200 [("server", "x")] [x68; x69].

(** A multipart content type that names an application type in a
    parameter. *)
Definition xop : Response :=
  mkResponse 200
    [("content-type",
      "multipart/related; type=" +:+ RegExp.quoted "application/xop+xml")]
    [x2d; x2d].

(** A text body that starts with the byte-order mark. *)
Definition bom_body : list byte := [xef; xbb; xbf; x68; x69].

Definition plain_bom : Response :=
  mkResponse 200 [("content-type", "text/plain")] bom_body.

Definition proto : Response :=
  mkResponse 200 [("__proto__", "x"); ("content-type", "text/plain")]
             [x68; x69].

(** A state that already shows an earlier result. *)
Definition earlier : WebhookResponse literal :=
  mkWebhookResponse 200 (DText [104; 105]%N) ∅ false "" "text/plain".

Definition shown : State literal :=
  mkState "https://example.test/hook" (Some file) false (Some earlier) false.

End Sample.

(* ===================================================================== *)
(** ** What the result panel offers, and what a log holds *)
(* ===================================================================== *)

Section Observations.

Context {JsonValue : Type} (JSON_parse : list N -> option JsonValue).

(** The result panel renders the download button: a result is shown and
    its [isFile] is set. *)
Definition download_offered (s : State JsonValue) : bool :=
  match response s with
  | Some r => isFile r
  | None => false
  end.

(** A result as the handler assembles them: [isFile] is the classification
    of the stored content type, the data is a [Blob] exactly for a file,
    and only a file has a file name. *)
Definition coherent (r : WebhookResponse JsonValue) : Prop :=
  isFile r = isFile_of (contentType r)
  /\ (isFile r = true <-> exists b, data r = DBlob b)
  /\ (isFile r = false -> fileName r = "").

(** The toasts of a log, the requests of a log, and how many times a body
    was read, in the order of the log. *)
Definition toasts (log : list (effect JsonValue)) : list Toast :=
  flat_map (fun e => match e with EToast t => [t] | _ => [] end) log.

Definition requests (log : list (effect JsonValue))
  : list (string * string * FormData) :=
  flat_map (fun e => match e with
                     | EFetch url method body => [(url, method, body)]
                     | _ => []
                     end) log.

Definition body_reads (log : list (effect JsonValue)) : nat :=
  length (List.filter (fun e => match e with
                                | EBlob | EJson | EText => true
                                | _ => false
                                end) log).

(** The events of a list, one after the other. *)
Definition run_events (es : list (event)) (s : State JsonValue)
  : State JsonValue :=
  fold_left (fun s e => step JSON_parse e s) es s.

End Observations.

Module Scenario.

(** The sample form filled in from the initial state, and the state after
    the sample PDF has come back. *)
Definition filled : State Sample.literal :=
  step Sample.parse_literal (FileSelect (Some [Sample.file]))
    (step Sample.parse_literal (UrlChange "https://example.test/hook")
          initial).

Definition after_pdf : State Sample.literal :=
  step Sample.parse_literal (ClickSend (Sample.answers Sample.pdf)) filled.

(** The same, as the event loop sees it: the click, then the settling of
    the request. *)
Definition mounted_after_pdf : @Mounted Sample.literal :=
  occur Sample.parse_literal (Settle (Some Sample.pdf))
    (occur Sample.parse_literal Click (mkMounted filled None)).

(** The filled form just after the click, the request under way. *)
Definition mounted_sending : @Mounted Sample.literal :=
  occur Sample.parse_literal Click (mkMounted filled None).

(** Two headers of different names. *)
Definition two_headers : Headers.t :=
  [("content-type", "text/plain"); ("server", "x")].

(** A disposition that names no file. *)
Definition inline_only : Response :=
  mkResponse 200
    [("content-disposition", "inline"); ("content-type", "application/pdf")]
    [x25; x50; x44; x46].


End Scenario.

(* ===================================================================== *)
(** * Properties *)
(* ===================================================================== *)

(** ** Strings *)

#[local] Arguments String.append !s1 s2 : simpl nomatch.

Section StringFacts.
Import JsString.

Lemma startsWith_spec (s t : string) :
  startsWith s t = true <-> exists post, s = t +:+ post.
Proof.
  revert s; induction t as [|c t IH]; intros s; simpl.
  - split; [intros _; exists s; reflexivity | reflexivity].
  - destruct s as [|d s].
    + split; [discriminate | intros [post H]; discriminate].
    + destruct (Ascii.eqb_spec c d) as [->|Hne].
      * rewrite IH. split; intros [post H]; exists post.
        -- simpl. now rewrite H.
        -- simpl in H. now injection H.
      * split; [discriminate|]. intros [post H]. simpl in H.
        injection H as Hd _. congruence.
Qed.

Lemma includes_spec (s t : string) :
  includes s t = true <-> exists pre post, s = pre +:+ t +:+ post.
Proof.
  induction s as [|d s IH]; simpl.
  - destruct (startsWith "" t) eqn:E.
    + apply startsWith_spec in E as [post E].
      split; [intros _; exists "", post; exact E | reflexivity].
    + split; [discriminate|]. intros (pre & post & H).
      destruct pre; simpl in H; [|discriminate].
      assert (startsWith "" t = true) by (apply startsWith_spec; eauto).
      congruence.
  - destruct (startsWith (String d s) t) eqn:E.
    + apply startsWith_spec in E as [post E].
      split; [intros _; exists "", post; exact E | reflexivity].
    + rewrite IH. split.
      * intros (pre & post & H). exists (String d pre), post.
        simpl. now rewrite H.
      * intros (pre & post & H). destruct pre as [|c pre]; simpl in H.
        -- assert (startsWith (String d s) t = true)
             by (apply startsWith_spec; eauto).
           congruence.
        -- injection H as _ H. eauto.
Qed.

Lemma includes_cons (c : ascii) (s t : string) :
  includes (String c s) t
  = if startsWith (String c s) t then true else includes s t.
Proof. reflexivity. Qed.

Lemma includes_false (s t : string) :
  includes s t = false <-> ~ exists pre post, s = pre +:+ t +:+ post.
Proof.
  rewrite <- includes_spec. destruct (includes s t); split; intros H;
    try reflexivity; try discriminate; congruence.
Qed.

(** A prefix is an occurrence. *)
Lemma startsWith_includes (s t : string) :
  startsWith s t = true -> includes s t = true.
Proof. destruct s; simpl; intros ->; reflexivity. Qed.

End StringFacts.

(** ** The paths through [sendWebhook]

    One equation per path: the state and the log the handler ends with. *)

Ltac run_handler :=
  unfold run_sendWebhook, sendWebhook, attempt, try_catch_finally, request,
    fetch, blob, json, text, setResponse, setIsLoading, toast, do, bind, ret,
    throw;
  cbn [fst snd].

Section Paths.

Context {JsonValue : Type} (JSON_parse : list N -> option JsonValue).

Lemma run_invalid (net : network) (s : State JsonValue) :
  JsString.truthy (webhookUrl s) = false \/ selectedFile s = None ->
  run_sendWebhook JSON_parse net s = (s, [EToast validation_toast]).
Proof.
  run_handler. intros [H|H]; rewrite H; [reflexivity|].
  destruct (JsString.truthy (webhookUrl s)); reflexivity.
Qed.

Section Valid.
Variables (net : network) (s : State JsonValue) (file : File).
Hypothesis Hurl : JsString.truthy (webhookUrl s) = true.
Hypothesis Hfile : selectedFile s = Some file.

Lemma run_rejected :
  net (webhookUrl s) [("file", file)] = None ->
  run_sendWebhook JSON_parse net s =
    (failed s,
     [ESetIsLoading true; sent s file; EToast failure_toast;
      EConsoleError; ESetIsLoading false]).
Proof.
  intros Hnet. run_handler. rewrite Hurl, Hfile. cbn. rewrite Hnet.
  reflexivity.
Qed.

Variable res : Response.
Hypothesis Hnet : net (webhookUrl s) [("file", file)] = Some res.

Lemma run_binary :
  isFile_of (contentType_of res) = true ->
  let r := assembled res (DBlob (res_body res)) (fileName_of res) in
  run_sendWebhook JSON_parse net s =
    (resolved s r,
     [ESetIsLoading true; sent s file; EBlob; ESetResponse r;
      EToast (success_toast (res_status res)); ESetIsLoading false]).
Proof.
  intros Hbin. run_handler. rewrite Hurl, Hfile. cbn. rewrite Hnet.
  unfold assembled. rewrite Hbin. reflexivity.
Qed.

Lemma run_json_parsed (v : JsonValue) :
  isFile_of (contentType_of res) = false ->
  JsString.includes (contentType_of res) "json" = true ->
  JSON_parse (Utf8.decode (res_body res)) = Some v ->
  let r := assembled res (DJson v) "" in
  run_sendWebhook JSON_parse net s =
    (resolved s r,
     [ESetIsLoading true; sent s file; EJson; ESetResponse r;
      EToast (success_toast (res_status res)); ESetIsLoading false]).
Proof.
  intros Hbin Hjson Hparse. run_handler. rewrite Hurl, Hfile. cbn.
  rewrite Hnet. unfold assembled. rewrite Hbin, Hjson. cbn.
  rewrite Hparse. reflexivity.
Qed.

Lemma run_json_invalid :
  isFile_of (contentType_of res) = false ->
  JsString.includes (contentType_of res) "json" = true ->
  JSON_parse (Utf8.decode (res_body res)) = None ->
  run_sendWebhook JSON_parse net s =
    (failed s,
     [ESetIsLoading true; sent s file; EJson; EToast failure_toast;
      EConsoleError; ESetIsLoading false]).
Proof.
  intros Hbin Hjson Hparse. run_handler. rewrite Hurl, Hfile. cbn.
  rewrite Hnet. rewrite Hbin, Hjson. cbn. rewrite Hparse. reflexivity.
Qed.

Lemma run_text :
  isFile_of (contentType_of res) = false ->
  JsString.includes (contentType_of res) "json" = false ->
  let r := assembled res (DText (Utf8.decode (res_body res))) "" in
  run_sendWebhook JSON_parse net s =
    (resolved s r,
     [ESetIsLoading true; sent s file; EText; ESetResponse r;
      EToast (success_toast (res_status res)); ESetIsLoading false]).
Proof.
  intros Hbin Hjson. run_handler. rewrite Hurl, Hfile. cbn.
  rewrite Hnet. unfold assembled. rewrite Hbin, Hjson. reflexivity.
Qed.

End Valid.

(** All paths at once, for the state alone: the handler stores the result,
    if there is one, and ends with the loading flag cleared; an incomplete
    form leaves the state as it is. *)
Lemma run_state (net : network) (s : State JsonValue) :
  fst (run_sendWebhook JSON_parse net s)
  = match JsString.truthy (webhookUrl s), selectedFile s with
    | true, Some file =>
        with_isLoading false
          (match stored_for JSON_parse
                   (net (webhookUrl s) [("file", file)]) with
           | Some r => with_response r (with_isLoading true s)
           | None => with_isLoading true s
           end)
    | _, _ => s
    end.
Proof.
  destruct (JsString.truthy (webhookUrl s)) eqn:Hurl;
    [|rewrite run_invalid by (left; exact Hurl); reflexivity].
  destruct (selectedFile s) as [file|] eqn:Hfile;
    [|rewrite run_invalid by (right; exact Hfile); reflexivity].
  unfold stored_for.
  destruct (net (webhookUrl s) [("file", file)]) as [res|] eqn:Hnet;
    [|rewrite (run_rejected net s file Hurl Hfile Hnet); reflexivity].
  destruct (isFile_of (contentType_of res)) eqn:Hbin;
    [rewrite (run_binary net s file Hurl Hfile res Hnet Hbin); reflexivity|].
  destruct (JsString.includes (contentType_of res) "json") eqn:Hjson;
    [|rewrite (run_text net s file Hurl Hfile res Hnet Hbin Hjson);
      reflexivity].
  destruct (JSON_parse (Utf8.decode (res_body res))) as [v|] eqn:Hparse.
  - rewrite (run_json_parsed net s file Hurl Hfile res Hnet v Hbin Hjson
               Hparse). reflexivity.
  - rewrite (run_json_invalid net s file Hurl Hfile res Hnet Hbin Hjson
               Hparse). reflexivity.
Qed.

End Paths.

(** ** The response classifier *)

Ltac log_mem :=
  cbn [In]; intuition (try discriminate; try congruence).

Section Classifier.

Context {JsonValue : Type} (JSON_parse : list N -> option JsonValue).

Lemma isFile_of_spec (ct : string) :
  isFile_of ct = true <->
  JsString.occurs_in "application/" ct
  /\ ~ JsString.occurs_in "json" ct
  /\ ~ JsString.occurs_in "text" ct.
Proof.
  unfold isFile_of, JsString.occurs_in.
  rewrite !andb_true_iff, !negb_true_iff, includes_spec, !includes_false.
  tauto.
Qed.

(** A content type that starts with [application/] and has neither [json]
    nor [text] in it is binary. *)
Lemma application_prefix_is_binary (ct : string) :
  JsString.startsWith ct "application/" = true ->
  JsString.includes ct "json" = false ->
  JsString.includes ct "text" = false ->
  isFile_of ct = true.
Proof.
  intros Hp Hj Ht. unfold isFile_of.
  rewrite (startsWith_includes _ _ Hp), Hj, Ht. reflexivity.
Qed.

(** C1 (as amended): the handler classifies a response as binary exactly
    when its content type contains [application/] at some position, not
    only at the start, and contains neither [json] nor [text]; a binary
    response is stored with [isFile] set and its body read by [res.blob()]
    alone, never by [res.json()] or [res.text()], and no other response is
    read as a blob or stored with [isFile] set. *)
Theorem binary_iff_contains_application
    (net : network) (s : State JsonValue) (file : File) (res : Response)
    (Hurl : JsString.truthy (webhookUrl s) = true)
    (Hfile : selectedFile s = Some file)
    (Hnet : net (webhookUrl s) [("file", file)] = Some res) :
  let ct := contentType_of res in
  let out := run_sendWebhook JSON_parse net s in
  let binary :=
    JsString.occurs_in "application/" ct /\ ~ JsString.occurs_in "json" ct
    /\ ~ JsString.occurs_in "text" ct in
  (isFile_of ct = true <-> binary)
  /\ (binary ->
      exists r, response (fst out) = Some r /\ isFile r = true
                /\ data r = DBlob (res_body res)
                /\ In (ESetResponse r) (snd out)
                /\ In EBlob (snd out)
                /\ ~ In EJson (snd out) /\ ~ In EText (snd out))
  /\ (~ binary ->
      ~ In EBlob (snd out)
      /\ forall r, In (ESetResponse r) (snd out) -> isFile r = false).
Proof.
  intros ct out binary.
  assert (Hspec : isFile_of ct = true <-> binary) by apply isFile_of_spec.
  split; [exact Hspec|]. split.
  - intros Hb. apply Hspec in Hb. subst out.
    rewrite (run_binary JSON_parse net s file Hurl Hfile res Hnet Hb).
    eexists. cbn [fst snd resolved with_isLoading with_response response].
    split; [reflexivity|]. unfold assembled at 1 2. cbn [isFile data].
    fold ct. rewrite Hb. repeat split; log_mem.
  - intros Hnb.
    assert (Hb : isFile_of ct = false).
    { destruct (isFile_of ct); [exfalso; apply Hnb, Hspec|]; reflexivity. }
    subst out.
    destruct (JsString.includes ct "json") eqn:Hjson.
    + destruct (JSON_parse (Utf8.decode (res_body res))) as [v|] eqn:Hparse.
      * rewrite (run_json_parsed JSON_parse net s file Hurl Hfile res Hnet v
                   Hb Hjson Hparse).
        cbn [snd]. split; [log_mem|]. intros r Hin.
        cbn [In] in Hin.
        repeat (destruct Hin as [Hin|Hin]; try discriminate Hin);
          [|contradiction].
        injection Hin as <-. exact Hb.
      * rewrite (run_json_invalid JSON_parse net s file Hurl Hfile res Hnet
                   Hb Hjson Hparse).
        cbn [snd]. split; [log_mem|]. intros r Hin. cbn [In] in Hin.
        repeat (destruct Hin as [Hin|Hin]; try discriminate Hin).
        contradiction.
    + rewrite (run_text JSON_parse net s file Hurl Hfile res Hnet Hb Hjson).
      cbn [snd]. split; [log_mem|]. intros r Hin.
      cbn [In] in Hin.
      repeat (destruct Hin as [Hin|Hin]; try discriminate Hin);
        [|contradiction].
      injection Hin as <-. exact Hb.
Qed.

End Classifier.

Lemma binary_iff_contains_application_witness :
  isFile_of (contentType_of Sample.pdf) = true <->
  JsString.occurs_in "application/" (contentType_of Sample.pdf)
  /\ ~ JsString.occurs_in "json" (contentType_of Sample.pdf)
  /\ ~ JsString.occurs_in "text" (contentType_of Sample.pdf).
Proof.
  exact (proj1 (binary_iff_contains_application Sample.parse_literal
                  (Sample.answers Sample.pdf) Sample.ready Sample.file
                  Sample.pdf eq_refl eq_refl eq_refl)).
Defined.

(** C1, as stated, fails: [multipart/related; type="application/xop+xml"]
    does not start with [application/], yet the handler reads the body as a
    blob and stores the result with [isFile] set. *)
Lemma binary_without_application_prefix :
  let out := run_sendWebhook Sample.parse_literal
               (Sample.answers Sample.xop) Sample.ready in
  JsString.startsWith (contentType_of Sample.xop) "application/" = false
  /\ JsString.includes (contentType_of Sample.xop) "json" = false
  /\ JsString.includes (contentType_of Sample.xop) "text" = false
  /\ In EBlob (snd out)
  /\ exists r, response (fst out) = Some r /\ isFile r = true.
Proof.
  cbv zeta. repeat split; try reflexivity.
  - vm_compute. tauto.
  - eexists. split; reflexivity.
Qed.

(** ** Structured responses *)

Section Structured.

Context {JsonValue : Type} (JSON_parse : list N -> option JsonValue).

(** A content type that contains [json] is never binary. *)
Lemma json_not_binary (ct : string) :
  JsString.includes ct "json" = true -> isFile_of ct = false.
Proof.
  intros H. unfold isFile_of. rewrite H.
  destruct (JsString.includes ct "application/"); reflexivity.
Qed.

(** C2: when the content type contains [json] the response is not binary
    and its body is read by [res.json()] alone.  A body that parses is
    stored as the parsed value.  A body that does not parse makes the
    handler show the destructive failure toast; no result is stored, so the
    result state is what it was before the submission: no empty result and
    no raw-text result is produced. *)
Theorem json_parse_failure_reported
    (net : network) (s : State JsonValue) (file : File) (res : Response)
    (Hurl : JsString.truthy (webhookUrl s) = true)
    (Hfile : selectedFile s = Some file)
    (Hnet : net (webhookUrl s) [("file", file)] = Some res)
    (Hjson : JsString.occurs_in "json" (contentType_of res)) :
  let out := run_sendWebhook JSON_parse net s in
  let parsed := JSON_parse (Utf8.decode (res_body res)) in
  isFile_of (contentType_of res) = false
  /\ In EJson (snd out) /\ ~ In EBlob (snd out) /\ ~ In EText (snd out)
  /\ (forall v, parsed = Some v ->
        exists r, response (fst out) = Some r /\ data r = DJson v
                  /\ isFile r = false)
  /\ (parsed = None ->
        In (EToast failure_toast) (snd out)
        /\ destructive failure_toast = true
        /\ (forall r, ~ In (ESetResponse r) (snd out))
        /\ response (fst out) = response s).
Proof.
  intros out parsed. apply includes_spec in Hjson.
  pose proof (json_not_binary _ Hjson) as Hb.
  split; [exact Hb|]. subst out.
  destruct parsed as [v|] eqn:Hparse; subst parsed.
  - rewrite (run_json_parsed JSON_parse net s file Hurl Hfile res Hnet v
               Hb Hjson Hparse).
    cbn [fst snd]. repeat split; try solve [log_mem]; try discriminate.
    intros v' Hv'. injection Hv' as <-. eexists.
    split; [reflexivity|]. split; [reflexivity|]. exact Hb.
  - rewrite (run_json_invalid JSON_parse net s file Hurl Hfile res Hnet
               Hb Hjson Hparse).
    cbn [fst snd]. repeat split; try solve [log_mem]; discriminate.
Qed.

End Structured.

Lemma json_parse_failure_reported_witness :
  let out := run_sendWebhook Sample.parse_literal
               (Sample.answers Sample.bad_json) Sample.ready in
  In (EToast failure_toast) (snd out)
  /\ destructive failure_toast = true
  /\ (forall r, ~ In (ESetResponse r) (snd out))
  /\ response (fst out) = response Sample.ready.
Proof.
  refine (proj2 (proj2 (proj2 (proj2 (proj2
    (json_parse_failure_reported Sample.parse_literal
       (Sample.answers Sample.bad_json) Sample.ready Sample.file
       Sample.bad_json eq_refl eq_refl eq_refl _))))) eq_refl).
  exists "application/", "". reflexivity.
Defined.

(** ** The file-name pattern *)

Section FileNamePattern.
Import RegExp.

Lemma run_Cat r1 r2 s caps :
  run (Cat r1 r2) s caps
  = flat_map (fun '(s1, c1) => run r2 s1 c1) (run r1 s caps).
Proof. reflexivity. Qed.

Lemma run_Opt r s caps : run (Opt r) s caps = run r s caps ++ [(s, caps)].
Proof. reflexivity. Qed.

Lemma run_Plus r s caps :
  run (Plus r) s caps = plus_loop (run r) (String.length s) s caps.
Proof. reflexivity. Qed.

Lemma run_Group i r s caps :
  run (Group i r) s caps
  = map (fun '(s1, c1) => (s1, (i, consumed s s1) :: c1)) (run r s caps).
Proof. reflexivity. Qed.

Lemma run_Lit_eq c s caps : run (Lit c) (String c s) caps = [(s, caps)].
Proof. cbn [run]. rewrite Ascii.eqb_refl. reflexivity. Qed.

Lemma run_Lit_ne c d s caps :
  Ascii.eqb c d = false -> run (Lit c) (String d s) caps = [].
Proof. intros H. cbn [run]. rewrite H. reflexivity. Qed.

Lemma run_Lit_nil c caps : run (Lit c) "" caps = [].
Proof. reflexivity. Qed.

Lemma run_lits_match (t rest : string) (caps : captures) :
  run (lits t) (t +:+ rest) caps = [(rest, caps)].
Proof.
  induction t as [|c t IH]; simpl; [reflexivity|].
  rewrite Ascii.eqb_refl. simpl. rewrite IH. reflexivity.
Qed.

Lemma run_lits_fail (t s : string) (caps : captures) :
  JsString.startsWith s t = false -> run (lits t) s caps = [].
Proof.
  revert s; induction t as [|c t IH]; intros s; simpl; [discriminate|].
  destruct s as [|d s]; [reflexivity|].
  destruct (Ascii.eqb c d); [|reflexivity].
  intros H. simpl. rewrite (IH _ H). reflexivity.
Qed.

Lemma run_filename_fail (s : string) (caps : captures) :
  JsString.startsWith s "filename=" = false -> run filename_re s caps = [].
Proof.
  intros H. unfold filename_re. rewrite run_Cat.
  rewrite (run_lits_fail "filename=" s caps H). reflexivity.
Qed.

(** No occurrence of [filename=] starts inside [pre] and runs over into a
    following [filename=]: the pattern does not overlap itself. *)
Lemma no_straddle (pre tail : string) :
  pre <> "" ->
  JsString.startsWith pre "filename=" = false ->
  JsString.startsWith (pre +:+ "filename=" +:+ tail) "filename=" = false.
Proof.
  intros Hne Hf.
  destruct (JsString.startsWith (pre +:+ "filename=" +:+ tail) "filename=")
    eqn:H; [exfalso|reflexivity].
  apply startsWith_spec in H as [post H].
  assert (Hf' : ~ exists p, pre = "filename=" +:+ p).
  { intros Hp. apply startsWith_spec in Hp. congruence. }
  clear Hf.
  destruct pre as [|c pre]; [congruence|]. clear Hne.
  simpl in H. injection H as -> H.
  do 7 (destruct pre as [|c pre]; [simpl in H; discriminate H|];
        simpl in H; injection H as -> H).
  destruct pre as [|c pre]; [simpl in H; discriminate H|].
  simpl in H. injection H as Hc _. subst c.
  apply Hf'. exists pre. reflexivity.
Qed.

Lemma exec_skip (pre tail : string) :
  JsString.includes pre "filename=" = false ->
  exec filename_re (pre +:+ "filename=" +:+ tail)
  = exec filename_re ("filename=" +:+ tail).
Proof.
  induction pre as [|c pre IH]; intros Hinc; [reflexivity|].
  rewrite includes_cons in Hinc.
  destruct (JsString.startsWith (String c pre) "filename=") eqn:Hs;
    [discriminate|].
  change (String c pre +:+ "filename=" +:+ tail)
    with (String c (pre +:+ "filename=" +:+ tail)).
  cbn [exec].
  rewrite run_filename_fail; [exact (IH Hinc)|].
  apply (no_straddle (String c pre) tail); [discriminate|exact Hs].
Qed.

Lemma plus_loop_eq iter fuel s caps :
  plus_loop iter fuel s caps =
  flat_map
    (fun '(s1, c1) =>
       match fuel with
       | O => [(s1, c1)]
       | S fuel' =>
           if Nat.ltb (String.length s1) (String.length s)
           then plus_loop iter fuel' s1 c1 ++ [(s1, c1)]
           else [(s1, c1)]
       end)
    (iter s caps).
Proof. destruct fuel; reflexivity. Qed.

Lemma quote_free_cons (c : ascii) (name : string) :
  JsString.includes (String c name) (String quote "") = false ->
  Ascii.eqb quote c = false
  /\ JsString.includes name (String quote "") = false.
Proof.
  rewrite includes_cons. cbn [JsString.startsWith].
  destruct (Ascii.eqb quote c); [discriminate|]. auto.
Qed.

Lemma length_append (s t : string) :
  String.length (s +:+ t) = String.length s + String.length t.
Proof. induction s; simpl; congruence. Qed.

Lemma run_notquote_stops (rest : string) (caps : captures) :
  stops rest -> run (NotChar quote) rest caps = [].
Proof.
  intros [->|[rest' ->]]; cbn [run]; [reflexivity|].
  rewrite Ascii.eqb_refl. reflexivity.
Qed.

Lemma run_notquote_cons (c : ascii) (s : string) (caps : captures) :
  Ascii.eqb quote c = false ->
  run (NotChar quote) (String c s) caps = [(s, caps)].
Proof. intros H. cbn [run]. rewrite H. reflexivity. Qed.

(** The greedy [+] over characters other than the quote first takes all of
    a quote-free [name]. *)
Lemma plus_notquote (name rest : string) (caps : captures) (fuel : nat) :
  name <> "" ->
  JsString.includes name (String quote "") = false ->
  stops rest ->
  String.length name <= S fuel ->
  exists l,
    plus_loop (run (NotChar quote)) fuel (name +:+ rest) caps
    = (rest, caps) :: l.
Proof.
  revert fuel. induction name as [|c name IH]; intros fuel Hne Hq Hst Hlen;
    [congruence|].
  apply quote_free_cons in Hq as [Hc Hq].
  rewrite plus_loop_eq.
  change (String c name +:+ rest) with (String c (name +:+ rest)).
  rewrite (run_notquote_cons c _ caps Hc). cbn [flat_map].
  rewrite app_nil_r.
  destruct name as [|d name].
  - change ("" +:+ rest) with rest.
    destruct fuel as [|fuel]; [eexists; reflexivity|].
    replace (Nat.ltb _ _) with true
      by (symmetry; apply Nat.ltb_lt; simpl; lia).
    rewrite plus_loop_eq, (run_notquote_stops rest caps Hst).
    eexists. reflexivity.
  - destruct fuel as [|fuel]; [simpl in Hlen; lia|].
    replace (Nat.ltb _ _) with true
      by (symmetry; apply Nat.ltb_lt; simpl; lia).
    destruct (IH fuel) as [l Hl]; [discriminate|exact Hq|exact Hst| |].
    + simpl in Hlen |- *. lia.
    + rewrite Hl. eexists. reflexivity.
Qed.

Lemma consumed_append (name rest : string) :
  consumed (name +:+ rest) rest = name.
Proof.
  unfold consumed. rewrite length_append.
  replace (String.length name + String.length rest - String.length rest)
    with (String.length name) by lia.
  induction name as [|c name IH]; simpl.
  - destruct rest; reflexivity.
  - rewrite IH. reflexivity.
Qed.

(** From a quote-free [name] on, the part of the pattern after the optional
    opening quote matches, capturing [name]. *)
Lemma run_name (name rest : string) (caps : captures) :
  name <> "" ->
  JsString.includes name (String quote "") = false ->
  stops rest ->
  exists s' l,
    run (Cat (Group 1 (Plus (NotChar quote))) (Opt (Lit quote)))
        (name +:+ rest) caps
    = (s', (1, name) :: caps) :: l.
Proof.
  intros Hne Hq Hst. rewrite run_Cat, run_Group, run_Plus.
  destruct (plus_notquote name rest caps (String.length (name +:+ rest))
              Hne Hq Hst) as [l Hl].
  { rewrite length_append. lia. }
  rewrite Hl. cbn [map flat_map]. rewrite consumed_append, run_Opt.
  destruct Hst as [->|[rest' ->]].
  - rewrite run_Lit_nil. eexists _, _. reflexivity.
  - rewrite run_Lit_eq. eexists _, _. reflexivity.
Qed.

(** At an occurrence of [filename=] followed by an optional quote and a
    quote-free [name], the pattern matches and captures [name]. *)
Lemma run_filename_at (oq name rest : string) :
  oq = "" \/ oq = String quote "" ->
  name <> "" ->
  JsString.includes name (String quote "") = false ->
  stops rest ->
  exists s' l,
    run filename_re ("filename=" +:+ oq +:+ name +:+ rest) []
    = (s', [(1, name)]) :: l.
Proof.
  intros Hoq Hne Hq Hst. unfold filename_re.
  rewrite run_Cat, run_lits_match. cbn [flat_map]. rewrite app_nil_r.
  rewrite run_Cat, run_Opt.
  destruct (run_name name rest [] Hne Hq Hst) as (s' & l & Hrun).
  destruct Hoq as [->| ->].
  - change ("" +:+ name +:+ rest) with (name +:+ rest).
    destruct name as [|c name]; [congruence|].
    apply quote_free_cons in Hq as [Hc _].
    change (String c name +:+ rest) with (String c (name +:+ rest)) in *.
    rewrite (run_Lit_ne quote c _ _ Hc). cbn [app flat_map].
    rewrite app_nil_r, Hrun. eexists _, _. reflexivity.
  - change (String quote "" +:+ name +:+ rest)
      with (String quote (name +:+ rest)).
    rewrite run_Lit_eq. cbn [app flat_map].
    rewrite Hrun. eexists _, _. reflexivity.
Qed.

(** What [disposition.match] finds: the name after the first [filename=],
    quoted or not. *)
Lemma exec_filename (pre oq name rest : string) :
  JsString.includes pre "filename=" = false ->
  oq = "" \/ oq = String quote "" ->
  name <> "" ->
  JsString.includes name (String quote "") = false ->
  stops rest ->
  exists m,
    exec filename_re (pre +:+ "filename=" +:+ oq +:+ name +:+ rest) = Some m
    /\ capture 1 m = Some name.
Proof.
  intros Hpre Hoq Hne Hq Hst. rewrite (exec_skip pre _ Hpre).
  destruct (run_filename_at oq name rest Hoq Hne Hq Hst) as (s' & l & Hrun).
  exists [(1, name)]. split; [|reflexivity].
  destruct ("filename=" +:+ oq +:+ name +:+ rest) eqn:E;
    cbn [exec]; rewrite Hrun; reflexivity.
Qed.

Lemma Forall_flat_map {A B} (P : B -> Prop) (f : A -> list B) (l : list A) :
  List.Forall (fun a => List.Forall P (f a)) l ->
  List.Forall P (flat_map f l).
Proof.
  induction 1 as [|a l Ha _ IH]; cbn [flat_map]; [constructor|].
  apply Forall_app. split; assumption.
Qed.

Lemma run_lits_caps (t s : string) (caps : captures) :
  List.Forall (fun res => snd res = caps) (run (lits t) s caps).
Proof.
  revert s. induction t as [|c t IH]; intros s.
  - repeat constructor.
  - cbn [lits]. rewrite run_Cat. apply Forall_flat_map.
    cbn [run]. destruct s as [|d s]; [constructor|].
    destruct (Ascii.eqb c d); repeat constructor. apply IH.
Qed.

Lemma run_opt_quote_caps (s : string) (caps : captures) :
  List.Forall (fun res => snd res = caps) (run (Opt (Lit quote)) s caps).
Proof.
  rewrite run_Opt. apply Forall_app. split; [|repeat constructor].
  cbn [run]. destruct s as [|d s]; [constructor|].
  destruct (Ascii.eqb quote d); repeat constructor.
Qed.

Lemma plus_notquote_results (fuel : nat) :
  forall s caps,
    List.Forall
      (fun res => snd res = caps
                  /\ String.length (fst res) < String.length s)
      (plus_loop (run (NotChar quote)) fuel s caps).
Proof.
  induction fuel as [|fuel IH]; intros s caps; rewrite plus_loop_eq;
    apply Forall_flat_map; cbn [run];
    (destruct s as [|d s]; [constructor|]);
    (destruct (Ascii.eqb quote d); [constructor|]);
    (constructor; [|constructor]).
  - constructor; [|constructor]. cbn. split; [reflexivity|lia].
  - assert (Hhere : List.Forall
              (fun res : string * captures =>
                 snd res = caps
                 /\ String.length (fst res) < String.length (String d s))
              [(s, caps)]).
    { constructor; [|constructor]. cbn. split; [reflexivity|lia]. }
    destruct (Nat.ltb (String.length s) (String.length (String d s)));
      [|exact Hhere].
    apply Forall_app. split; [|exact Hhere].
    eapply Forall_impl; [apply IH|].
    intros [s1 c1] [Hc Hl]. cbn [fst snd String.length] in *. split;
      [exact Hc|lia].
Qed.

Lemma consumed_nonempty (s rest : string) :
  String.length rest < String.length s -> consumed s rest <> "".
Proof.
  unfold consumed. intros Hl.
  destruct s as [|c s]; [cbn in Hl; lia|].
  cbn [String.length] in *.
  destruct (S (String.length s) - String.length rest) as [|n] eqn:E; [lia|].
  cbn. discriminate.
Qed.

Lemma run_filename_binds (s : string) (caps : captures) :
  List.Forall (binds_name caps) (run filename_re s caps).
Proof.
  unfold filename_re. rewrite run_Cat. apply Forall_flat_map.
  eapply Forall_impl; [apply run_lits_caps|].
  intros [s1 c1] Hc. cbn [snd] in Hc. subst c1.
  rewrite run_Cat. apply Forall_flat_map.
  eapply Forall_impl; [apply run_opt_quote_caps|].
  intros [s2 c2] Hc. cbn [snd] in Hc. subst c2.
  rewrite run_Cat. apply Forall_flat_map.
  rewrite run_Group, run_Plus. apply Forall_map.
  eapply Forall_impl; [apply plus_notquote_results|].
  intros [s3 c3] [Hc Hl]. cbn [fst snd] in Hc, Hl. subst c3.
  eapply Forall_impl; [apply run_opt_quote_caps|].
  intros [s4 c4] Hc. cbn [snd] in Hc. subst c4.
  eexists. split; [reflexivity|]. apply consumed_nonempty, Hl.
Qed.

(** Whatever [disposition.match] returns, its group 1 is a non-empty
    string. *)
Lemma exec_filename_binds (s : string) (m : captures) :
  exec filename_re s = Some m ->
  exists name, capture 1 m = Some name /\ name <> "".
Proof.
  assert (Hhead : forall s',
            match run filename_re s' [] with
            | (_, m') :: _ =>
                exists name, capture 1 m' = Some name /\ name <> ""
            | [] => True
            end).
  { intros s'. pose proof (run_filename_binds s' []) as Hr.
    destruct (run filename_re s' []) as [|[s1 m'] l]; [exact I|].
    inversion Hr as [|? ? (name & Hn & Hne) _]. cbn [snd] in Hn. subst m'.
    exists name. split; [reflexivity|exact Hne]. }
  induction s as [|c s IH]; cbn [exec].
  - specialize (Hhead "").
    destruct (run filename_re "" []) as [|[s1 m'] l]; [discriminate|].
    intros E. injection E as <-. exact Hhead.
  - specialize (Hhead (String c s)).
    destruct (run filename_re (String c s) []) as [|[s1 m'] l]; [exact IH|].
    intros E. injection E as <-. exact Hhead.
Qed.

End FileNamePattern.

(** ** The suggested file name *)

Section FileName.
Import RegExp.

Context {JsonValue : Type} (JSON_parse : list N -> option JsonValue).

Lemma or_else_nonempty (s d : string) : s <> "" -> JsString.or_else s d = s.
Proof. destruct s; [congruence|reflexivity]. Qed.

Lemma truthy_nonempty (s : string) : s <> "" -> JsString.truthy s = true.
Proof. destruct s; [congruence|reflexivity]. Qed.

Lemma append_nonempty (s t : string) : t <> "" -> s +:+ t <> "".
Proof. destruct s, t; simpl; congruence. Qed.

(** The name the binary branch takes from a header that carries
    [filename=], with or without quotes. *)
Lemma fileName_of_found (res : Response) (pre oq name rest : string) :
  Headers.get (res_headers res) "content-disposition"
  = Some (pre +:+ "filename=" +:+ oq +:+ name +:+ rest) ->
  JsString.includes pre "filename=" = false ->
  oq = "" \/ oq = String quote "" ->
  name <> "" ->
  JsString.includes name (String quote "") = false ->
  stops rest ->
  fileName_of res = name.
Proof.
  intros Hget Hpre Hoq Hne Hq Hst. unfold fileName_of. rewrite Hget.
  rewrite truthy_nonempty.
  - destruct (exec_filename pre oq name rest Hpre Hoq Hne Hq Hst)
      as (m & -> & ->). reflexivity.
  - apply append_nonempty. discriminate.
Qed.

(** The three ways [fileName] is left by the binary branch: empty without
    a header value, [download] when the pattern finds nothing, and else the
    non-empty text of group 1. *)
Lemma fileName_of_cases (res : Response) :
  let disposition := Headers.get (res_headers res) "content-disposition" in
  (fileName_of res = "" /\ (disposition = None \/ disposition = Some ""))
  \/ (fileName_of res = "download"
      /\ exists d, disposition = Some d /\ exec filename_re d = None)
  \/ (fileName_of res <> ""
      /\ exists d m, disposition = Some d /\ exec filename_re d = Some m
                     /\ capture 1 m = Some (fileName_of res)).
Proof.
  intros disposition. unfold fileName_of. fold disposition.
  destruct disposition as [d|]; [|left; auto].
  destruct d as [|c d]; [left; auto|]. cbn [JsString.truthy].
  destruct (exec filename_re (String c d)) as [m|] eqn:E.
  - destruct (exec_filename_binds _ _ E) as (name & Hn & Hne).
    rewrite Hn. right; right. split; [exact Hne|]. eauto.
  - right; left. split; [reflexivity|]. eauto.
Qed.

(** C3 (as amended): for a binary response the stored [fileName] is what
    the pattern captures from the [content-disposition] header: the
    characters after the first [filename=], an opening double quote
    skipped, up to the next double quote or the end of the header; so
    [attachment; filename="report.pdf"] gives [report.pdf].  Without the
    header the stored name is the empty string; the default [download] is
    put in its place where the name is shown and where the file is
    saved. *)
Theorem suggested_file_name
    (net : network) (s : State JsonValue) (file : File) (res : Response)
    (Hurl : JsString.truthy (webhookUrl s) = true)
    (Hfile : selectedFile s = Some file)
    (Hnet : net (webhookUrl s) [("file", file)] = Some res)
    (Hbin : isFile_of (contentType_of res) = true) :
  let out := run_sendWebhook JSON_parse net s in
  let disposition := Headers.get (res_headers res) "content-disposition" in
  exists r,
    response (fst out) = Some r
    /\ (forall pre oq name rest,
          disposition = Some (pre +:+ "filename=" +:+ oq +:+ name +:+ rest) ->
          JsString.includes pre "filename=" = false ->
          oq = "" \/ oq = String quote "" ->
          name <> "" ->
          JsString.includes name (String quote "") = false ->
          stops rest ->
          fileName r = name
          /\ downloadFile (fst out) = Some (name, res_body res))
    /\ (disposition = Some ("attachment; filename=" +:+ quoted "report.pdf") ->
          fileName r = "report.pdf"
          /\ downloadFile (fst out) = Some ("report.pdf", res_body res))
    /\ (disposition = None ->
          fileName r = "" /\ shown_fileName r = "download"
          /\ downloadFile (fst out) = Some ("download", res_body res)).
Proof.
  intros out disposition. subst out.
  rewrite (run_binary JSON_parse net s file Hurl Hfile res Hnet Hbin).
  eexists. split; [reflexivity|].
  unfold downloadFile, shown_fileName.
  cbn [fst resolved with_isLoading with_response response assembled
       fileName isFile data].
  rewrite Hbin.
  assert (Hgen : forall pre oq name rest,
            disposition = Some (pre +:+ "filename=" +:+ oq +:+ name +:+ rest) ->
            JsString.includes pre "filename=" = false ->
            oq = "" \/ oq = String quote "" ->
            name <> "" ->
            JsString.includes name (String quote "") = false ->
            stops rest ->
            fileName_of res = name
            /\ Some (JsString.or_else (fileName_of res) "download",
                     res_body res) = Some (name, res_body res)).
  { intros pre oq name rest Hd Hpre Hoq Hne Hq Hst.
    rewrite (fileName_of_found res pre oq name rest Hd Hpre Hoq Hne Hq Hst).
    rewrite (or_else_nonempty _ _ Hne). split; reflexivity. }
  split; [exact Hgen|]. split.
  - intros Hd.
    apply (Hgen "attachment; " (String quote "") "report.pdf"
                (String quote "")); try reflexivity.
    + exact Hd.
    + right; reflexivity.
    + discriminate.
    + right. eexists. reflexivity.
  - intros Hd. unfold fileName_of. fold disposition. rewrite Hd.
    repeat split; reflexivity.
Qed.

End FileName.

(** C3, as stated, fails: a binary response without a
    [content-disposition] header is stored with the empty string as its
    file name, not with the default name. *)
Lemma absent_header_leaves_name_empty :
  let out := run_sendWebhook Sample.parse_literal
               (Sample.answers Sample.pdf_unnamed) Sample.ready in
  Headers.get (res_headers Sample.pdf_unnamed) "content-disposition" = None
  /\ exists r,
       response (fst out) = Some r /\ isFile r = true
       /\ fileName r = "" /\ fileName r <> "download".
Proof.
  cbv zeta. split; [reflexivity|].
  eexists. split; [reflexivity|]. split; [reflexivity|].
  split; [reflexivity|]. discriminate.
Qed.

Example unnamed_file_is_saved_as_download :
  downloadFile
    (fst (run_sendWebhook Sample.parse_literal
            (Sample.answers Sample.pdf_unnamed) Sample.ready))
  = Some ("download", res_body Sample.pdf_unnamed).
Proof. reflexivity. Qed.

Lemma suggested_file_name_witness :
  let out := run_sendWebhook Sample.parse_literal
               (Sample.answers Sample.pdf) Sample.ready in
  exists r,
    response (fst out) = Some r
    /\ fileName r = "report.pdf"
    /\ downloadFile (fst out) = Some ("report.pdf", res_body Sample.pdf).
Proof.
  destruct (suggested_file_name Sample.parse_literal
              (Sample.answers Sample.pdf) Sample.ready Sample.file
              Sample.pdf eq_refl eq_refl eq_refl eq_refl)
    as (r & Hr & _ & Hex & _).
  exists r. split; [exact Hr|]. apply Hex. reflexivity.
Defined.

(** ** Validation, failure, and the loading flag *)

Section Submission.

Context {JsonValue : Type} (JSON_parse : list N -> option JsonValue).

Lemma truthy_empty (u : string) : JsString.truthy u = false <-> u = "".
Proof. destruct u; simpl; split; congruence. Qed.

(** C4: with an empty URL or no selected file the handler only shows the
    validation toast: it is the first and only effect, no [fetch] is
    issued, [setIsLoading] is not called, and the state is untouched. *)
Theorem validation_blocks_submission
    (net : network) (s : State JsonValue)
    (Hmissing : webhookUrl s = "" \/ selectedFile s = None) :
  let out := run_sendWebhook JSON_parse net s in
  snd out = [EToast validation_toast]
  /\ destructive validation_toast = true
  /\ (forall url method body, ~ In (EFetch url method body) (snd out))
  /\ (forall b, ~ In (ESetIsLoading b) (snd out))
  /\ fst out = s.
Proof.
  intros out. subst out. rewrite run_invalid.
  - cbn [fst snd]. repeat split; try solve [log_mem]; intros; log_mem.
  - destruct Hmissing as [H|H]; [left; apply truthy_empty, H|right; exact H].
Qed.

(** The handler's last word on the loading flag. *)
Lemma run_isLoading (net : network) (s : State JsonValue) :
  isLoading (fst (run_sendWebhook JSON_parse net s))
  = match JsString.truthy (webhookUrl s), selectedFile s with
    | true, Some _ => false
    | _, _ => isLoading s
    end.
Proof.
  rewrite run_state.
  destruct (JsString.truthy (webhookUrl s)), (selectedFile s); reflexivity.
Qed.

(** The handler changes neither the URL nor the selected file. *)
Lemma run_inputs (net : network) (s : State JsonValue) :
  webhookUrl (fst (run_sendWebhook JSON_parse net s)) = webhookUrl s
  /\ selectedFile (fst (run_sendWebhook JSON_parse net s)) = selectedFile s.
Proof.
  rewrite run_state.
  destruct (JsString.truthy (webhookUrl s)); [|split; reflexivity].
  destruct (selectedFile s) as [file|] eqn:Hfile; [|split; auto].
  destruct (stored_for JSON_parse (net (webhookUrl s) [("file", file)]));
    split; auto.
Qed.

(** Between two events the component is never loading. *)
Lemma reachable_not_loading (s : State JsonValue) :
  reachable JSON_parse s -> isLoading s = false.
Proof.
  induction 1 as [|e s Hs IH]; [reflexivity|].
  destruct e as [u| | |files|files|net]; cbn [step].
  - exact IH.
  - exact IH.
  - exact IH.
  - unfold handleDrop. destruct files; exact IH.
  - unfold handleFileSelect. destruct files as [[|f fs]|]; exact IH.
  - unfold click. destruct (disabled s); [exact IH|].
    rewrite run_isLoading.
    destruct (JsString.truthy (webhookUrl s)), (selectedFile s);
      first [reflexivity | exact IH].
Qed.

(** C5 (as amended): when [fetch] rejects no result is stored, the handler
    shows the one fixed failure toast, and the loading flag is cleared; the
    result state is left as it was, so a result shown before the failed
    submission is still shown after it, and none is shown if none was. *)
Theorem network_failure_keeps_result
    (net : network) (s : State JsonValue) (file : File)
    (Hurl : JsString.truthy (webhookUrl s) = true)
    (Hfile : selectedFile s = Some file)
    (Hnet : net (webhookUrl s) [("file", file)] = None) :
  let out := run_sendWebhook JSON_parse net s in
  (forall r, ~ In (ESetResponse r) (snd out))
  /\ In (EToast failure_toast) (snd out)
  /\ (forall t, In (EToast t) (snd out) -> t = failure_toast)
  /\ isLoading (fst out) = false
  /\ response (fst out) = response s.
Proof.
  intros out. subst out.
  rewrite (run_rejected JSON_parse net s file Hurl Hfile Hnet).
  cbn [fst snd]. unfold sent. repeat split; log_mem.
Qed.

(** C10: whenever the handler is invoked in a state the component can be
    in, it ends with the loading flag false, on every path: validation
    failure, a stored result, a rejected [fetch], a body that does not
    parse.  The button is then disabled only for want of a URL or a file,
    which the handler does not change. *)
Theorem loading_cleared_after_submission
    (s : State JsonValue) (Hreach : reachable JSON_parse s) (net : network) :
  let s' := fst (run_sendWebhook JSON_parse net s) in
  isLoading s' = false
  /\ disabled s'
     = negb (JsString.truthy (webhookUrl s))
       || match selectedFile s with Some _ => false | None => true end
  /\ reachable JSON_parse s'.
Proof.
  intros s'. pose proof (reachable_not_loading s Hreach) as Hidle.
  assert (Hl : isLoading s' = false).
  { subst s'. rewrite run_isLoading.
    destruct (JsString.truthy (webhookUrl s)), (selectedFile s);
      first [reflexivity | exact Hidle]. }
  split; [exact Hl|]. split.
  - subst s'. unfold disabled. rewrite Hl.
    destruct (run_inputs net s) as [-> ->]. apply orb_false_r.
  - destruct (disabled s) eqn:Hd.
    + (* the button would not have delivered the click: the handler fails
         validation or the state is loading, which it is not *)
      unfold disabled in Hd. rewrite Hidle, orb_false_r in Hd.
      subst s'. rewrite run_invalid; [exact Hreach|].
      destruct (JsString.truthy (webhookUrl s)); [right|left; reflexivity].
      destruct (selectedFile s); [discriminate|reflexivity].
    + replace s' with (step JSON_parse (ClickSend net) s).
      * apply reach_step, Hreach.
      * cbn [step]. unfold click. rewrite Hd. reflexivity.
Qed.

End Submission.

Lemma validation_blocks_submission_witness :
  snd (run_sendWebhook Sample.parse_literal Sample.rejects initial)
  = [EToast validation_toast].
Proof.
  exact (proj1 (validation_blocks_submission Sample.parse_literal
                  Sample.rejects initial (or_introl eq_refl))).
Defined.

Lemma network_failure_keeps_result_witness :
  response (fst (run_sendWebhook Sample.parse_literal Sample.rejects
                   Sample.shown))
  = response Sample.shown.
Proof.
  exact (proj2 (proj2 (proj2 (proj2
    (network_failure_keeps_result Sample.parse_literal Sample.rejects
       Sample.shown Sample.file eq_refl eq_refl eq_refl))))).
Defined.

(** C5, as stated, fails: a result shown before a submission whose [fetch]
    rejects is still the current result after it. *)
Lemma result_still_shown_after_network_failure :
  let out := run_sendWebhook Sample.parse_literal Sample.rejects
               Sample.shown in
  In (EFetch (webhookUrl Sample.shown) "POST" [("file", Sample.file)])
     (snd out)
  /\ In (EToast failure_toast) (snd out)
  /\ response (fst out) = Some Sample.earlier
  /\ response (fst out) <> None.
Proof.
  cbv zeta. repeat split; try (vm_compute; tauto). discriminate.
Qed.

Lemma loading_cleared_after_submission_witness :
  let rejected :=
    run_sendWebhook Sample.parse_literal Sample.rejects Scenario.filled in
  let answered :=
    run_sendWebhook Sample.parse_literal (Sample.answers Sample.pdf)
                    Scenario.filled in
  (In (ESetIsLoading true) (snd rejected)
   /\ isLoading (fst rejected) = false
   /\ disabled (fst rejected) = false)
  /\ (In (ESetIsLoading true) (snd answered)
      /\ isLoading (fst answered) = false
      /\ disabled (fst answered) = false).
Proof.
  assert (Hfilled : reachable Sample.parse_literal Scenario.filled)
    by (do 2 apply reach_step; apply reach_initial).
  intros rejected answered. split.
  - destruct (loading_cleared_after_submission Sample.parse_literal
                Scenario.filled Hfilled Sample.rejects) as [Hl [Hd _]].
    split; [left; reflexivity|]. split; [exact Hl|exact Hd].
  - destruct (loading_cleared_after_submission Sample.parse_literal
                Scenario.filled Hfilled (Sample.answers Sample.pdf))
      as [Hl [Hd _]].
    split; [left; reflexivity|]. split; [exact Hl|exact Hd].
Defined.

(** ** Responses without a content type *)

Section NoContentType.

Context {JsonValue : Type} (JSON_parse : list N -> option JsonValue).

(** [get] answers [null] exactly when no header has the name, in any
    letter case. *)
Lemma Headers_get_None (h : Headers.t) (name : string) :
  Headers.get h name = None <->
  Forall (fun kv => JsString.toLowerCase (fst kv)
                    <> JsString.toLowerCase name) h.
Proof.
  unfold Headers.get.
  induction h as [|kv h IH].
  - split; [constructor|reflexivity].
  - cbn [List.filter]. unfold Headers.name_matches at 1.
    destruct (String.eqb_spec (JsString.toLowerCase (fst kv))
                              (JsString.toLowerCase name)) as [Heq|Hne].
    + cbn [map].
      split; [discriminate|]. intros HF. inversion HF; subst. contradiction.
    + rewrite IH.
      split; [constructor; assumption|]. intros HF. inversion HF; assumption.
Qed.

(** [get] does not tell the letter cases of a name apart. *)
Lemma Headers_get_any_case (h : Headers.t) (name name' : string) :
  JsString.toLowerCase name = JsString.toLowerCase name' ->
  Headers.get h name = Headers.get h name'.
Proof.
  intros E. unfold Headers.get.
  replace (List.filter (Headers.name_matches name) h)
    with (List.filter (Headers.name_matches name') h); [reflexivity|].
  apply List.filter_ext. intros kv. unfold Headers.name_matches.
  rewrite E. reflexivity.
Qed.

(** C9: a response without any [content-type] header has the empty string
    as its content type; it is neither binary nor structured, its body is
    read by [res.text()] alone, and the decoded text is stored as it is. *)
Theorem missing_content_type_is_text
    (net : network) (s : State JsonValue) (file : File) (res : Response)
    (Hurl : JsString.truthy (webhookUrl s) = true)
    (Hfile : selectedFile s = Some file)
    (Hnet : net (webhookUrl s) [("file", file)] = Some res)
    (Hnone : Forall (fun kv => JsString.toLowerCase (fst kv)
                               <> "content-type") (res_headers res)) :
  let out := run_sendWebhook JSON_parse net s in
  contentType_of res = ""
  /\ isFile_of (contentType_of res) = false
  /\ JsString.includes (contentType_of res) "json" = false
  /\ (exists r,
        response (fst out) = Some r
        /\ contentType r = "" /\ isFile r = false
        /\ data r = DText (Utf8.decode (res_body res)))
  /\ In EText (snd out) /\ ~ In EBlob (snd out) /\ ~ In EJson (snd out).
Proof.
  intros out.
  assert (Hct : contentType_of res = "").
  { unfold contentType_of.
    replace (Headers.get (res_headers res) "content-type") with
      (@None string); [reflexivity|].
    symmetry. apply Headers_get_None. exact Hnone. }
  assert (Hbin : isFile_of (contentType_of res) = false)
    by (rewrite Hct; reflexivity).
  assert (Hjson : JsString.includes (contentType_of res) "json" = false)
    by (rewrite Hct; reflexivity).
  split; [exact Hct|]. split; [exact Hbin|]. split; [exact Hjson|].
  subst out.
  rewrite (run_text JSON_parse net s file Hurl Hfile res Hnet Hbin Hjson).
  cbn [fst snd]. split; [|repeat split; log_mem].
  eexists. split; [reflexivity|].
  cbn [assembled contentType isFile data]. rewrite Hct. auto.
Qed.

End NoContentType.

Lemma missing_content_type_is_text_witness :
  exists r,
    response (fst (run_sendWebhook Sample.parse_literal
                     (Sample.answers Sample.untyped) Sample.ready)) = Some r
    /\ contentType r = "" /\ isFile r = false
    /\ data r = DText (Utf8.decode (res_body Sample.untyped)).
Proof.
  refine (proj1 (proj2 (proj2 (proj2
    (missing_content_type_is_text Sample.parse_literal
       (Sample.answers Sample.untyped) Sample.ready Sample.file
       Sample.untyped eq_refl eq_refl eq_refl _))))).
  repeat constructor; discriminate.
Defined.

(** ** UTF-8: decoding then encoding *)

Section Utf8Facts.
Import Utf8.
Local Open Scope N_scope.

Ltac Zify.zify_post_hook ::= Z.to_euclidean_division_equations.

Lemma between_spec lo b hi : between lo b hi = true <-> lo <= b <= hi.
Proof. unfold between. rewrite andb_true_iff, !N.leb_le. tauto. Qed.

Lemma digits2 x0 x1 :
  x1 < 64 -> (x0 * 64 + x1) / 64 = x0 /\ (x0 * 64 + x1) mod 64 = x1.
Proof. intros. split; lia. Qed.

Lemma digits3 x0 x1 x2 :
  x1 < 64 -> x2 < 64 ->
  let cp := (x0 * 64 + x1) * 64 + x2 in
  cp / 4096 = x0 /\ (cp / 64) mod 64 = x1 /\ cp mod 64 = x2.
Proof. intros. subst cp. repeat split; lia. Qed.

Lemma digits4 x0 x1 x2 x3 :
  x1 < 64 -> x2 < 64 -> x3 < 64 ->
  let cp := ((x0 * 64 + x1) * 64 + x2) * 64 + x3 in
  cp / 262144 = x0 /\ (cp / 4096) mod 64 = x1 /\ (cp / 64) mod 64 = x2
  /\ cp mod 64 = x3.
Proof. intros. subst cp. repeat split; lia. Qed.

Lemma low6 b : 0x80 <= b <= 0xBF -> b mod 64 < 64 /\ 0x80 + b mod 64 = b.
Proof. lia. Qed.

(** The value of a well-formed two-, three- or four-byte sequence encodes
    back to the sequence and is a scalar value. *)
Lemma encode_2 b0 b1 :
  0xC2 <= b0 <= 0xDF -> 0x80 <= b1 <= 0xBF ->
  let cp := b0 mod 32 * 64 + b1 mod 64 in
  encode_point cp = [b0; b1] /\ Utf16.is_scalar cp = true.
Proof.
  intros H0 H1 cp. subst cp. destruct (low6 b1 H1) as [L1 E1].
  assert (E0 : 0xC0 + b0 mod 32 = b0) by lia.
  assert (R0 : 2 <= b0 mod 32 < 32) by lia.
  destruct (digits2 (b0 mod 32) (b1 mod 64) L1) as [D0 D1].
  unfold encode_point, Utf16.is_scalar.
  generalize dependent (b0 mod 32). generalize dependent (b1 mod 64).
  intros x1 L1 E1 x0 E0 R0 D0 D1.
  destruct (N.ltb_spec (x0 * 64 + x1) 0x80); [lia|].
  destruct (N.ltb_spec (x0 * 64 + x1) 0x800); [|lia].
  rewrite D0, D1, E0, E1. split; [reflexivity|].
  destruct (N.ltb_spec (x0 * 64 + x1) 0xD800); [reflexivity|lia].
Qed.

Lemma encode_3 b0 b1 b2 :
  0xE0 <= b0 <= 0xEF ->
  (if b0 =? 0xE0 then 0xA0 else 0x80) <= b1
    <= (if b0 =? 0xED then 0x9F else 0xBF) ->
  0x80 <= b2 <= 0xBF ->
  let cp := (b0 mod 16 * 64 + b1 mod 64) * 64 + b2 mod 64 in
  encode_point cp = [b0; b1; b2] /\ Utf16.is_scalar cp = true.
Proof.
  intros H0 H1 H2 cp. subst cp.
  assert (H1' : 0x80 <= b1 <= 0xBF)
    by (destruct (b0 =? 0xE0), (b0 =? 0xED); lia).
  assert (Hmin : b0 mod 16 = 0 -> 32 <= b1 mod 64).
  { destruct (N.eqb_spec b0 0xE0); [|lia]. intros _.
    destruct (b0 =? 0xED); lia. }
  assert (Hsur : b0 mod 16 = 13 -> b1 mod 64 < 32).
  { destruct (N.eqb_spec b0 0xED); [|lia]. intros _.
    destruct (b0 =? 0xE0); lia. }
  destruct (low6 b1 H1') as [L1 E1]. destruct (low6 b2 H2) as [L2 E2].
  assert (E0 : 0xE0 + b0 mod 16 = b0) by lia.
  assert (R0 : b0 mod 16 < 16) by lia.
  destruct (digits3 (b0 mod 16) (b1 mod 64) (b2 mod 64) L1 L2)
    as (D0 & D1 & D2).
  unfold encode_point, Utf16.is_scalar.
  generalize dependent (b0 mod 16). generalize dependent (b1 mod 64).
  generalize dependent (b2 mod 64).
  intros x2 L2 E2 x1 L1 E1 x0 Hmin Hsur E0 R0 D0 D1 D2.
  destruct (N.ltb_spec ((x0 * 64 + x1) * 64 + x2) 0x80); [lia|].
  destruct (N.ltb_spec ((x0 * 64 + x1) * 64 + x2) 0x800); [lia|].
  destruct (N.ltb_spec ((x0 * 64 + x1) * 64 + x2) 0x10000); [|lia].
  rewrite D0, D1, D2, E0, E1, E2. split; [reflexivity|].
  destruct (N.ltb_spec ((x0 * 64 + x1) * 64 + x2) 0xD800); [reflexivity|].
  cbn [orb].
  destruct (N.leb_spec 0xE000 ((x0 * 64 + x1) * 64 + x2)); [|lia].
  destruct (N.leb_spec ((x0 * 64 + x1) * 64 + x2) 0x10FFFF); [reflexivity|lia].
Qed.

Lemma encode_4 b0 b1 b2 b3 :
  0xF0 <= b0 <= 0xF4 ->
  (if b0 =? 0xF0 then 0x90 else 0x80) <= b1
    <= (if b0 =? 0xF4 then 0x8F else 0xBF) ->
  0x80 <= b2 <= 0xBF ->
  0x80 <= b3 <= 0xBF ->
  let cp := ((b0 mod 8 * 64 + b1 mod 64) * 64 + b2 mod 64) * 64 + b3 mod 64 in
  encode_point cp = [b0; b1; b2; b3] /\ Utf16.is_scalar cp = true.
Proof.
  intros H0 H1 H2 H3 cp. subst cp.
  assert (H1' : 0x80 <= b1 <= 0xBF)
    by (destruct (b0 =? 0xF0), (b0 =? 0xF4); lia).
  assert (Hmin : b0 mod 8 = 0 -> 16 <= b1 mod 64).
  { destruct (N.eqb_spec b0 0xF0); [|lia]. intros _.
    destruct (b0 =? 0xF4); lia. }
  assert (Hmax : b0 mod 8 = 4 -> b1 mod 64 < 16).
  { destruct (N.eqb_spec b0 0xF4); [|lia]. intros _.
    destruct (b0 =? 0xF0); lia. }
  destruct (low6 b1 H1') as [L1 E1]. destruct (low6 b2 H2) as [L2 E2].
  destruct (low6 b3 H3) as [L3 E3].
  assert (E0 : 0xF0 + b0 mod 8 = b0) by lia.
  assert (R0 : b0 mod 8 <= 4) by lia.
  destruct (digits4 (b0 mod 8) (b1 mod 64) (b2 mod 64) (b3 mod 64) L1 L2 L3)
    as (D0 & D1 & D2 & D3).
  unfold encode_point, Utf16.is_scalar.
  generalize dependent (b0 mod 8). generalize dependent (b1 mod 64).
  generalize dependent (b2 mod 64). generalize dependent (b3 mod 64).
  intros x3 L3 E3 x2 L2 E2 x1 L1 E1 x0 Hmin Hmax E0 R0 D0 D1 D2 D3.
  destruct (N.ltb_spec (((x0 * 64 + x1) * 64 + x2) * 64 + x3) 0x80); [lia|].
  destruct (N.ltb_spec (((x0 * 64 + x1) * 64 + x2) * 64 + x3) 0x800); [lia|].
  destruct (N.ltb_spec (((x0 * 64 + x1) * 64 + x2) * 64 + x3) 0x10000); [lia|].
  rewrite D0, D1, D2, D3, E0, E1, E2, E3. split; [reflexivity|].
  destruct (N.ltb_spec (((x0 * 64 + x1) * 64 + x2) * 64 + x3) 0xD800); [lia|].
  cbn [orb].
  destruct (N.leb_spec 0xE000 (((x0 * 64 + x1) * 64 + x2) * 64 + x3)); [|lia].
  destruct (N.leb_spec (((x0 * 64 + x1) * 64 + x2) * 64 + x3) 0x10FFFF);
    [reflexivity|lia].
Qed.

(** One step of the decoder from a state that holds the bytes [p]. *)
Lemma handler_step (st : dstate) (p : list N) (b : N) :
  opened st p ->
  match handler st b with
  | Point cp => encode_point cp = p ++ [b] /\ Utf16.is_scalar cp = true
  | Continue st' => opened st' (p ++ [b])
  | Error | ErrorRestore => True
  end.
Proof.
  intros Hop. destruct Hop; unfold handler;
    cbn [bytes_needed bytes_seen code_point lower_boundary upper_boundary dinit].
  - change (0 =? 0) with true. cbv iota. unfold lead.
    destruct (between 0 b 0x7F) eqn:B0.
    { apply between_spec in B0. unfold encode_point, Utf16.is_scalar.
      destruct (N.ltb_spec b 0x80); [|lia].
      destruct (N.ltb_spec b 0xD800); [|lia]. split; reflexivity. }
    destruct (between 0xC2 b 0xDF) eqn:B2.
    { apply between_spec in B2. apply opened_2. exact B2. }
    destruct (between 0xE0 b 0xEF) eqn:B3.
    { apply between_spec in B3. apply opened_3. exact B3. }
    destruct (between 0xF0 b 0xF4) eqn:B4.
    { apply between_spec in B4. apply opened_4. exact B4. }
    exact I.
  - change (1 =? 0) with false. cbv iota.
    destruct (between 0x80 b 0xBF) eqn:B; [|exact I].
    apply between_spec in B. cbn [negb]. change (0 + 1 =? 1) with true.
    cbv iota. apply encode_2; assumption.
  - change (2 =? 0) with false. cbv iota.
    destruct (between _ b _) eqn:B; [|exact I].
    apply between_spec in B. cbn [negb]. change (0 + 1 =? 2) with false.
    cbv iota. apply opened_3_1; assumption.
  - change (2 =? 0) with false. cbv iota.
    destruct (between 0x80 b 0xBF) eqn:B; [|exact I].
    apply between_spec in B. cbn [negb]. change (1 + 1 =? 2) with true.
    cbv iota. apply encode_3; assumption.
  - change (3 =? 0) with false. cbv iota.
    destruct (between _ b _) eqn:B; [|exact I].
    apply between_spec in B. cbn [negb]. change (0 + 1 =? 3) with false.
    cbv iota. apply opened_4_1; assumption.
  - change (3 =? 0) with false. cbv iota.
    destruct (between 0x80 b 0xBF) eqn:B; [|exact I].
    apply between_spec in B. cbn [negb]. change (1 + 1 =? 3) with false.
    cbv iota. apply opened_4_2; assumption.
  - change (3 =? 0) with false. cbv iota.
    destruct (between 0x80 b 0xBF) eqn:B; [|exact I].
    apply between_spec in B. cbn [negb]. change (2 + 1 =? 3) with true.
    cbv iota. apply encode_4; assumption.
Qed.

(** Without errors, encoding what the decoder yields gives back the bytes
    it has taken in. *)
Lemma decode_from_encode (bs : list N) :
  forall st p,
    opened st p ->
    no_error (decode_from st bs) = true ->
    encode_N (map replacement (decode_from st bs)) = p ++ bs.
Proof.
  induction bs as [|b bs IH]; intros st p Hop Hok.
  - cbn [decode_from] in *.
    destruct Hop; cbn [bytes_needed] in *;
      first [ rewrite app_nil_r; reflexivity | discriminate Hok ].
  - cbn [decode_from] in *.
    pose proof (handler_step st p b Hop) as Hstep.
    destruct (handler st b) as [st'|cp| |].
    + rewrite (IH st' (p ++ [b]) Hstep Hok), <- app_assoc. reflexivity.
    + cbn [no_error forallb] in Hok. cbn [map replacement].
      unfold encode_N in *. cbn [flat_map]. destruct Hstep as [Hstep _].
      rewrite (IH dinit [] opened_none Hok), Hstep, <- app_assoc.
      reflexivity.
    + discriminate Hok.
    + discriminate Hok.
Qed.

(** Whatever the bytes, the decoder yields scalar values only. *)
Lemma decode_from_scalar (bs : list N) :
  forall st p,
    opened st p ->
    forallb Utf16.is_scalar (map replacement (decode_from st bs)) = true.
Proof.
  induction bs as [|b bs IH]; intros st p Hop.
  - cbn [decode_from]. destruct (bytes_needed st =? 0); reflexivity.
  - cbn [decode_from].
    pose proof (handler_step st p b Hop) as Hstep.
    destruct (handler st b) as [st'|cp| |].
    + exact (IH st' (p ++ [b]) Hstep).
    + cbn [map replacement forallb]. destruct Hstep as [_ ->].
      exact (IH dinit [] opened_none).
    + cbn [map replacement forallb]. exact (IH dinit [] opened_none).
    + cbn [map replacement forallb].
      pose proof (handler_step dinit [] b opened_none) as Hlead.
      change (handler dinit b) with (lead b) in Hlead.
      destruct (lead b) as [st'|cp| |].
      * exact (IH st' ([] ++ [b]) Hlead).
      * cbn [map replacement forallb]. destruct Hlead as [_ ->].
        exact (IH dinit [] opened_none).
      * cbn [map replacement forallb]. exact (IH dinit [] opened_none).
      * cbn [map replacement forallb]. exact (IH dinit [] opened_none).
Qed.

Lemma decode_N_scalar (bs : list N) :
  forallb Utf16.is_scalar (decode_N bs) = true.
Proof. apply (decode_from_scalar _ dinit [] opened_none). Qed.

(** On scalar values, the code units read back as the same values. *)
Lemma to_scalars_of_scalars (t : list N) :
  forallb Utf16.is_scalar t = true ->
  Utf16.to_scalars (Utf16.of_scalars t) = t.
Proof.
  induction t as [|cp t IH]; [reflexivity|].
  cbn [forallb]. rewrite andb_true_iff. intros [Hcp Ht].
  specialize (IH Ht).
  change (Utf16.of_scalars (cp :: t))
    with (Utf16.of_scalar cp ++ Utf16.of_scalars t).
  unfold Utf16.is_scalar in Hcp.
  rewrite orb_true_iff, andb_true_iff, N.ltb_lt, !N.leb_le in Hcp.
  unfold Utf16.of_scalar. destruct (N.ltb_spec cp 0x10000) as [Hlt|Hge].
  - cbn [app Utf16.to_scalars].
    replace (Utf16.is_lead cp) with false
      by (symmetry; unfold Utf16.is_lead;
          rewrite andb_false_iff, !N.leb_gt; lia).
    replace (Utf16.is_trail cp) with false
      by (symmetry; unfold Utf16.is_trail;
          rewrite andb_false_iff, !N.leb_gt; lia).
    rewrite IH. reflexivity.
  - cbn [app Utf16.to_scalars].
    set (v := cp - 0x10000).
    assert (Hv : v < 0x100000) by (subst v; lia).
    assert (Hq : v / 1024 < 1024) by lia.
    assert (Hr : v mod 1024 < 1024) by lia.
    assert (Hv' : v / 1024 * 1024 + v mod 1024 = v) by lia.
    replace (Utf16.is_lead (0xD800 + v / 1024)) with true
      by (symmetry; unfold Utf16.is_lead;
          rewrite andb_true_iff, !N.leb_le; lia).
    replace (Utf16.is_trail (0xDC00 + v mod 1024)) with true
      by (symmetry; unfold Utf16.is_trail;
          rewrite andb_true_iff, !N.leb_le; lia).
    rewrite IH. f_equal. subst v. lia.
Qed.

Lemma roundtrip_N (bs : list N) :
  well_formed bs = true ->
  encode_N (map replacement (decode_items bs)) = bs.
Proof.
  intros H. apply (decode_from_encode bs dinit [] opened_none H).
Qed.

Lemma well_formed_strip_bom (bs : list N) :
  well_formed bs = true -> well_formed (strip_bom bs) = true.
Proof.
  unfold strip_bom. destruct (has_bom bs) eqn:Hb; [|trivial].
  destruct bs as [|b0 [|b1 [|b2 bs]]]; try discriminate Hb.
  cbn [has_bom] in Hb. rewrite !andb_true_iff, !N.eqb_eq in Hb.
  destruct Hb as [[-> ->] ->]. intros H. exact H.
Qed.

Lemma map_byte_of_to_N (body : list byte) :
  map byte_of_N (map Byte.to_N body) = body.
Proof.
  induction body as [|b body IH]; [reflexivity|].
  cbn [map]. rewrite IH. unfold byte_of_N. rewrite Byte.of_to_N.
  reflexivity.
Qed.

(** Decoding then encoding gives the payload back, less a leading
    byte-order mark. *)
Lemma decode_encode (body : list byte) :
  valid body = true ->
  encode (decode body)
  = if starts_with_bom body then skipn 3 body else body.
Proof.
  unfold valid, encode, decode, starts_with_bom. intros H.
  rewrite (to_scalars_of_scalars _ (decode_N_scalar _)). unfold decode_N.
  rewrite (roundtrip_N _ (well_formed_strip_bom _ H)).
  unfold strip_bom. destruct (has_bom (map Byte.to_N body)).
  - rewrite skipn_map. apply map_byte_of_to_N.
  - apply map_byte_of_to_N.
Qed.

Lemma ascii_valid (body : list byte) :
  is_ascii body = true -> valid body = true /\ starts_with_bom body = false.
Proof.
  intros H. split.
  - unfold valid, well_formed, decode_items.
    induction body as [|b body IH]; [reflexivity|].
    cbn [is_ascii forallb] in H. apply andb_true_iff in H as [Hb H].
    apply N.ltb_lt in Hb. cbn [map decode_from].
    unfold handler. cbn [bytes_needed dinit]. change (0 =? 0) with true.
    cbv iota. unfold lead.
    replace (between 0 (Byte.to_N b) 0x7F) with true
      by (symmetry; apply between_spec; lia).
    cbn [forallb]. apply IH, H.
  - unfold starts_with_bom.
    destruct body as [|b0 [|b1 [|b2 body]]]; try reflexivity.
    cbn [is_ascii forallb] in H. apply andb_true_iff in H as [Hb _].
    apply N.ltb_lt in Hb. cbn [map has_bom].
    destruct (N.eqb_spec (Byte.to_N b0) 0xEF); [lia|reflexivity].
Qed.

End Utf8Facts.

(** ** Text responses *)

Section TextBody.

Context {JsonValue : Type} (JSON_parse : list N -> option JsonValue).

(** C7 (as amended): a response that is neither binary nor structured has
    its body read by [res.text()] alone and the decoded text stored as it
    is.  For a well-formed UTF-8 payload, encoding the decoded text gives
    the payload back, less a leading byte-order mark EF BB BF, which the
    decoder drops; so the round trip is the identity for every well-formed
    payload that does not start with the mark, and for every ASCII
    payload. *)
Theorem text_body_round_trip
    (net : network) (s : State JsonValue) (file : File) (res : Response)
    (Hurl : JsString.truthy (webhookUrl s) = true)
    (Hfile : selectedFile s = Some file)
    (Hnet : net (webhookUrl s) [("file", file)] = Some res)
    (Hbin : isFile_of (contentType_of res) = false)
    (Hjson : JsString.includes (contentType_of res) "json" = false) :
  let out := run_sendWebhook JSON_parse net s in
  let body := res_body res in
  (exists r, response (fst out) = Some r /\ data r = DText (Utf8.decode body))
  /\ In EText (snd out) /\ ~ In EBlob (snd out) /\ ~ In EJson (snd out)
  /\ (Utf8.valid body = true ->
      Utf8.encode (Utf8.decode body)
      = if Utf8.starts_with_bom body then skipn 3 body else body)
  /\ (Utf8.valid body = true -> Utf8.starts_with_bom body = false ->
      Utf8.encode (Utf8.decode body) = body)
  /\ (Utf8.is_ascii body = true -> Utf8.encode (Utf8.decode body) = body).
Proof.
  intros out body. subst out.
  rewrite (run_text JSON_parse net s file Hurl Hfile res Hnet Hbin Hjson).
  cbn [fst snd]. split; [eexists; split; reflexivity|].
  repeat split; try solve [log_mem].
  - apply decode_encode.
  - intros Hv Hb. rewrite (decode_encode body Hv), Hb. reflexivity.
  - intros Ha. destruct (ascii_valid body Ha) as [Hv Hb].
    rewrite (decode_encode body Hv), Hb. reflexivity.
Qed.

End TextBody.

Lemma text_body_round_trip_witness :
  Utf8.encode (Utf8.decode (res_body Sample.plain)) = res_body Sample.plain.
Proof.
  exact (proj2 (proj2 (proj2 (proj2 (proj2 (proj2
    (text_body_round_trip Sample.parse_literal
       (Sample.answers Sample.plain) Sample.ready Sample.file Sample.plain
       eq_refl eq_refl eq_refl eq_refl eq_refl)))))) eq_refl).
Defined.

(** C7, as stated, fails: the payload EF BB BF 68 69 is well-formed UTF-8,
    the handler stores the two-character text [hi], and encoding that text
    gives 68 69, not the payload. *)
Lemma bom_payload_does_not_round_trip :
  let out := run_sendWebhook Sample.parse_literal
               (Sample.answers Sample.plain_bom) Sample.ready in
  Utf8.valid Sample.bom_body = true
  /\ isFile_of (contentType_of Sample.plain_bom) = false
  /\ JsString.includes (contentType_of Sample.plain_bom) "json" = false
  /\ (exists r, response (fst out) = Some r
                /\ data r = DText [104; 105]%N)
  /\ Utf8.encode (Utf8.decode Sample.bom_body) = [x68; x69]
  /\ Utf8.encode (Utf8.decode Sample.bom_body) <> Sample.bom_body.
Proof.
  cbv zeta. repeat split; try reflexivity.
  - eexists. split; reflexivity.
  - discriminate.
Qed.

(** ** The collected headers *)

Section CollectedHeaders.

Context {JsonValue : Type} (JSON_parse : list N -> option JsonValue).

Lemma fold_set_lookup (h : Headers.t) (k : string) :
  forall (acc : gmap string string) (o : option string),
    acc !! k = (if String.eqb k "__proto__" then None else o) ->
    fold_left (fun acc kv => JsObject.set (fst kv) (snd kv) acc) h acc !! k
    = if String.eqb k "__proto__" then None
      else fold_left
             (fun acc kv => if String.eqb (fst kv) k then Some (snd kv) else acc)
             h o.
Proof.
  induction h as [|[k' v] h IH]; intros acc o Hacc; [exact Hacc|].
  cbn [fold_left fst snd]. apply IH. unfold JsObject.set.
  destruct (String.eqb_spec k' "__proto__") as [Ek'|Hk'].
  - rewrite Hacc. destruct (String.eqb_spec k "__proto__") as [Ek|Hk];
      [reflexivity|].
    destruct (String.eqb_spec k' k); [congruence|reflexivity].
  - destruct (String.eqb_spec k' k) as [Ekk|Hne].
    + rewrite Ekk, lookup_insert_eq.
      destruct (String.eqb_spec k "__proto__"); [congruence|reflexivity].
    + rewrite lookup_insert_ne by exact Hne. exact Hacc.
Qed.

(** What the collected object holds under a key: nothing under
    [__proto__], and otherwise the value of the last header of that name. *)
Lemma collect_headers_lookup (h : Headers.t) (k : string) :
  collect_headers h !! k
  = if String.eqb k "__proto__" then None else Headers.last_value k h.
Proof.
  unfold collect_headers, Headers.last_value. apply fold_set_lookup.
  rewrite lookup_empty. destruct (String.eqb k "__proto__"); reflexivity.
Qed.

Lemma last_value_app (k : string) (h1 h2 : Headers.t) :
  Headers.last_value k (h1 ++ h2)
  = match Headers.last_value k h2 with
    | Some v => Some v
    | None => Headers.last_value k h1
    end.
Proof.
  unfold Headers.last_value. rewrite fold_left_app.
  generalize (fold_left
    (fun acc kv => if String.eqb (fst kv) k then Some (snd kv) else acc)
    h1 None).
  induction h2 as [|[k' v] h2 IH] using rev_ind; intros o.
  - destruct o; reflexivity.
  - rewrite !fold_left_app. cbn [fold_left fst snd].
    destruct (String.eqb k' k); [reflexivity|]. apply IH.
Qed.

(** Every header whose name is not [__proto__] is in the collected object,
    under its name, with the value of the last header of that name. *)
Lemma headers_captured (h : Headers.t) (k v : string) :
  In (k, v) h -> k <> "__proto__" ->
  exists v', collect_headers h !! k = Some v'
             /\ Headers.last_value k h = Some v'.
Proof.
  intros Hin Hk. rewrite collect_headers_lookup.
  destruct (String.eqb_spec k "__proto__"); [congruence|].
  apply in_split in Hin as (h1 & h2 & ->).
  rewrite last_value_app.
  destruct (Headers.last_value k ((k, v) :: h2)) as [v'|] eqn:E;
    [eauto|].
  exfalso. change ((k, v) :: h2) with ([(k, v)] ++ h2) in E.
  rewrite last_value_app in E.
  destruct (Headers.last_value k h2); [discriminate|].
  unfold Headers.last_value in E. cbn in E. rewrite String.eqb_refl in E.
  discriminate.
Qed.

(** C6 (where the code departs from it): a response that carries a header
    named [__proto__] is stored with a header mapping that has no entry for
    that header, while its other headers are there. *)
Theorem proto_header_is_dropped :
  let out := run_sendWebhook Sample.parse_literal
               (Sample.answers Sample.proto) Sample.ready in
  In ("__proto__", "x") (res_headers Sample.proto)
  /\ exists r,
       response (fst out) = Some r
       /\ headers r = collect_headers (res_headers Sample.proto)
       /\ headers r !! "__proto__" = None
       /\ headers r !! "content-type" = Some "text/plain".
Proof.
  cbv zeta. split; [left; reflexivity|].
  eexists. split; [reflexivity|]. cbn [headers].
  split; [reflexivity|]. rewrite !collect_headers_lookup.
  split; reflexivity.
Qed.

End CollectedHeaders.

(** ** [formatFileSize] *)

Section FormatFacts.
Import Format.
Local Open Scope N_scope.

Lemma floor_log_fuel_spec (fuel : nat) :
  forall n, 0 < n -> n < 2 ^ N.of_nat fuel ->
    1024 ^ floor_log_fuel fuel 1024 n <= n
    /\ n < 1024 ^ (floor_log_fuel fuel 1024 n + 1).
Proof.
  induction fuel as [|fuel IH]; intros n Hpos Hlt.
  - cbn in Hlt. lia.
  - cbn [floor_log_fuel]. destruct (N.ltb_spec n 1024) as [Hs|Hs].
    + cbn. lia.
    + assert (Hq : 0 < n / 1024) by (apply N.div_str_pos; lia).
      assert (Hb : n / 1024 < 2 ^ N.of_nat fuel).
      { rewrite Nat2N.inj_succ, N.pow_succ_r' in Hlt.
        apply N.Div0.div_lt_upper_bound. lia. }
      destruct (IH (n / 1024) Hq Hb) as [Hlo Hhi].
      set (i := floor_log_fuel fuel 1024 (n / 1024)) in *.
      pose proof (N.Div0.mul_div_le n 1024) as Hle.
      pose proof (N.mul_succ_div_gt n 1024 ltac:(lia)) as Hgt.
      replace (1 + i) with (N.succ i) by lia.
      replace (N.succ i + 1) with (N.succ (i + 1)) by lia.
      rewrite !N.pow_succ_r'. split; nia.
Qed.

(** [floor_log 1024 n] is the index of the largest power of 1024 that does
    not exceed [n]. *)
Lemma floor_log_spec (n : N) :
  0 < n ->
  1024 ^ floor_log 1024 n <= n /\ n < 1024 ^ (floor_log 1024 n + 1).
Proof.
  intros Hpos. unfold floor_log. apply floor_log_fuel_spec; [exact Hpos|].
  rewrite Nat2N.inj_succ, N2Nat.id.
  apply N.log2_spec. exact Hpos.
Qed.

(** [hundredths num den / 100] is nearest to [num / den], the larger one on
    a tie. *)
Lemma hundredths_nearest (num den : N) :
  0 < den ->
  let n := hundredths num den in
  2 * n * den <= 200 * num + den /\ 200 * num + den < 2 * (n + 1) * den.
Proof.
  intros Hden n. subst n. unfold hundredths.
  pose proof (N.Div0.mul_div_le (200 * num + den) (2 * den)) as Hle.
  pose proof (N.mul_succ_div_gt (200 * num + den) (2 * den) ltac:(lia)) as Hgt.
  split; nia.
Qed.

(** Rounding to two decimals, trimming, and the units; past the last unit
    the source prints [undefined]. *)
Example formatFileSize_more :
  map formatFileSize [1; 1023; 1030; 1500000; 1048575; 1073741824;
                      1099511627776]
  = ["1 Bytes"; "1023 Bytes"; "1.01 KB"; "1.43 MB"; "1024 KB"; "1 GB";
     "1 undefined"].
Proof. vm_compute. reflexivity. Qed.

(** C8: the four sizes of the specification. *)
Theorem formatFileSize_examples :
  formatFileSize 0 = "0 Bytes"
  /\ formatFileSize 1024 = "1 KB"
  /\ formatFileSize 1536 = "1.5 KB"
  /\ formatFileSize 1048576 = "1 MB".
Proof. repeat split; vm_compute; reflexivity. Qed.

End FormatFacts.

(** ** Outstanding requests

    The run of the handler as the event loop sees it, in two parts with the
    other events in between, against the run in one step. *)

Section Outstanding.

Context {JsonValue : Type} (JSON_parse : list N -> option JsonValue).

(** The second part stores the result, if there is one, and clears the
    loading flag; it touches nothing else. *)
Lemma complete_eq (outcome : option Response) (rq : string * FormData)
    (s : State JsonValue) :
  complete JSON_parse outcome rq s
  = with_isLoading false
      (match stored_for JSON_parse outcome with
       | Some r => with_response r s
       | None => s
       end).
Proof.
  unfold complete, stored_for. run_handler. destruct s, outcome as [res|];
    cbn; [|reflexivity].
  unfold assembled.
  destruct (isFile_of (contentType_of res)); cbn; [reflexivity|].
  destruct (JsString.includes (contentType_of res) "json"); cbn;
    [|reflexivity].
  destruct (JSON_parse (Utf8.decode (res_body res))); reflexivity.
Qed.

(** The two parts make the whole. *)
Lemma begin_complete (net : network) (s : State JsonValue) (file : File) :
  JsString.truthy (webhookUrl s) = true ->
  selectedFile s = Some file ->
  begin s = (with_isLoading true s, Some (webhookUrl s, [("file", file)]))
  /\ fst (run_sendWebhook JSON_parse net s)
     = complete JSON_parse (net (webhookUrl s) [("file", file)])
         (webhookUrl s, [("file", file)]) (with_isLoading true s).
Proof.
  intros Hurl Hfile. split; [unfold begin; rewrite Hurl, Hfile; reflexivity|].
  rewrite complete_eq, run_state, Hurl, Hfile. reflexivity.
Qed.

(** The loading flag is set exactly while a request is outstanding. *)
Lemma loading_iff_pending (m : Mounted) :
  mounted_reachable JSON_parse m ->
  isLoading (comp m) = match pending m with Some _ => true | None => false end.
Proof.
  induction 1 as [|o m Hm IH]; [reflexivity|].
  destruct o as [e| |outcome]; cbn [occur].
  - destruct e as [u| | |files|files|net]; cbn [is_click comp pending step];
      try exact IH.
    + unfold handleDrop. destruct files; exact IH.
    + unfold handleFileSelect. destruct files as [[|f fs]|]; exact IH.
  - destruct (disabled (comp m)) eqn:Hd; [exact IH|].
    unfold disabled in Hd. rewrite !orb_false_iff, negb_false_iff in Hd.
    destruct Hd as [[Hurl Hfile] _]. unfold begin. rewrite Hurl.
    destruct (selectedFile (comp m)); [reflexivity|discriminate].
  - destruct (pending m) as [rq|] eqn:Hp;
      [|try rewrite Hp; exact IH].
    cbn [comp pending]. rewrite complete_eq. reflexivity.
Qed.

(** While a request is outstanding the button is disabled: no second run
    of the handler starts. *)
Lemma single_flight (m : Mounted) :
  mounted_reachable JSON_parse m ->
  pending m <> None -> disabled (comp m) = true.
Proof.
  intros Hm Hp. unfold disabled. rewrite (loading_iff_pending m Hm).
  destruct (pending m); [apply orb_true_r|congruence].
Qed.

(** The other events commute with the second part of the handler. *)
Lemma complete_step (outcome : option Response) (rq : string * FormData)
    (e : event) (s : State JsonValue) :
  is_click e = false ->
  complete JSON_parse outcome rq (step JSON_parse e s)
  = step JSON_parse e (complete JSON_parse outcome rq s).
Proof.
  intros He. rewrite !complete_eq.
  destruct (stored_for JSON_parse outcome) as [r|];
    destruct e as [u| | |files|files|net]; try discriminate He;
    cbn [step]; try reflexivity.
  - unfold handleDrop. destruct files; reflexivity.
  - unfold handleFileSelect. destruct files as [[|f fs]|]; reflexivity.
  - unfold handleDrop. destruct files; reflexivity.
  - unfold handleFileSelect. destruct files as [[|f fs]|]; reflexivity.
Qed.

(** Taking the handler's run as one step loses no state: whenever no
    request is outstanding the component is in a state reached with runs in
    one step, and so it is once the outstanding request has settled. *)
Lemma mounted_reachable_atomic (m : Mounted) :
  mounted_reachable JSON_parse m ->
  match pending m with
  | None => reachable JSON_parse (comp m)
  | Some rq =>
      forall outcome,
        reachable JSON_parse (complete JSON_parse outcome rq (comp m))
  end.
Proof.
  induction 1 as [|o m Hm IH]; [apply reach_initial|].
  pose proof (loading_iff_pending m Hm) as Hl.
  destruct o as [e| |outcome]; cbn [occur].
  - destruct (is_click e) eqn:He; [exact IH|]. cbn [comp pending].
    destruct (pending m) as [rq|].
    + intros outcome. rewrite (complete_step outcome rq e _ He).
      apply reach_step, IH.
    + apply reach_step, IH.
  - destruct (disabled (comp m)) eqn:Hd; [exact IH|]. cbn [comp pending].
    pose proof Hd as Hd'.
    unfold disabled in Hd'. rewrite !orb_false_iff, negb_false_iff in Hd'.
    destruct Hd' as [[Hurl Hfile] Hidle].
    destruct (pending m) as [rq|]; [congruence|].
    destruct (selectedFile (comp m)) as [file|] eqn:Hsel; [|discriminate].
    destruct (begin_complete (fun _ _ => None) (comp m) file Hurl Hsel)
      as [Hb _].
    rewrite Hb. cbn [fst snd]. intros outcome.
    destruct (begin_complete (fun _ _ => outcome) (comp m) file Hurl Hsel)
      as [_ <-].
    replace (fst (run_sendWebhook JSON_parse (fun _ _ => outcome) (comp m)))
      with (step JSON_parse (ClickSend (fun _ _ => outcome)) (comp m)).
    + apply reach_step, IH.
    + cbn [step]. unfold click. rewrite Hd. reflexivity.
  - destruct (pending m) as [rq|] eqn:Hp; cbn [comp pending].
    + apply IH.
    + rewrite Hp. exact IH.
Qed.

End Outstanding.

(* ===================================================================== *)
(** * Further properties *)
(* ===================================================================== *)

(** ** [formatFileSize] on all sizes *)

Section FormatAll.
Import Format.
Local Open Scope N_scope.

(** The index is the only one whose power brackets the size. *)
Lemma floor_log_unique (n i : N) :
  1024 ^ i <= n < 1024 ^ (i + 1) -> floor_log 1024 n = i.
Proof.
  intros [Hlo Hhi].
  assert (Hpos : 0 < n).
  { pose proof (N.pow_nonzero 1024 i ltac:(lia)). lia. }
  destruct (floor_log_spec n Hpos) as [Klo Khi].
  set (j := floor_log 1024 n) in *.
  destruct (N.lt_trichotomy j i) as [Hlt|[Heq|Hgt]]; [exfalso|exact Heq|exfalso].
  - assert (1024 ^ (j + 1) <= 1024 ^ i)
      by (apply N.pow_le_mono_r; lia). lia.
  - assert (1024 ^ (i + 1) <= 1024 ^ j)
      by (apply N.pow_le_mono_r; lia). lia.
Qed.

Lemma append_assoc' (s t u : string) : (s +:+ t) +:+ u = s +:+ (t +:+ u).
Proof. induction s as [|c s IH]; cbn; [reflexivity|]. rewrite IH. reflexivity. Qed.

Lemma append_empty_r (s : string) : s +:+ "" = s.
Proof. induction s as [|c s IH]; cbn; [reflexivity|]. rewrite IH. reflexivity. Qed.

Lemma rev_string_app (acc s : string) :
  rev_string acc s = rev_string "" s +:+ acc.
Proof.
  revert acc. induction s as [|c s IH]; intros acc; cbn [rev_string];
    [reflexivity|].
  rewrite (IH (String c acc)), (IH (String c "")), append_assoc'.
  reflexivity.
Qed.

Lemma rev_string_append (s t : string) :
  rev_string "" (s +:+ t) = rev_string "" t +:+ rev_string "" s.
Proof.
  induction s as [|c s IH]; cbn [String.append rev_string].
  - rewrite append_empty_r. reflexivity.
  - rewrite (rev_string_app (String c "") (s +:+ t)), IH,
      (rev_string_app (String c "") s), append_assoc'. reflexivity.
Qed.

Lemma rev_string_involutive (s : string) :
  rev_string "" (rev_string "" s) = s.
Proof.
  induction s as [|c s IH]; [reflexivity|]. cbn [rev_string].
  rewrite (rev_string_app (String c "") s), rev_string_append, IH.
  reflexivity.
Qed.

(** Reading back a numeral that ends in [.00] gives the numeral without
    the fraction. *)
Lemma parseFloat_whole (d : string) :
  parseFloat_to_string (d +:+ ".00") = d.
Proof.
  unfold parseFloat_to_string. rewrite rev_string_append.
  cbn [rev_string String.append drop_zeros drop_dot].
  apply rev_string_involutive.
Qed.

Lemma hundredths_whole (m d : N) :
  0 < d -> hundredths (m * d) d = 100 * m.
Proof.
  intros Hd. unfold hundredths.
  replace (200 * (m * d) + d) with ((200 * m + 1) * d) by lia.
  replace (2 * d) with (d * 2) by lia.
  rewrite <- N.Div0.div_div, N.div_mul by lia.
  replace (200 * m + 1) with (1 + (100 * m) * 2) by lia.
  rewrite N.div_add by lia. reflexivity.
Qed.

(** X1: a size that is a whole number [m] of one of the four units, with
    [m] from 1 to 1023, is printed as [m] without a fraction, followed by
    the unit; this covers every size below 1024 bytes.  (At the powers of
    1024 that start the four units the rounded logarithms of the source
    give the exact index.) *)
Theorem formatFileSize_whole_units (m i : N)
    (Hm : 1 <= m < 1024) (Hi : i <= 3) :
  formatFileSize (m * 1024 ^ i) = decimal m +:+ " " +:+ sizes_at i.
Proof.
  clear Hi.
  assert (Hd : 0 < 1024 ^ i).
  { pose proof (N.pow_nonzero 1024 i ltac:(lia)). lia. }
  assert (Hi : floor_log 1024 (m * 1024 ^ i) = i).
  { apply floor_log_unique. rewrite N.add_1_r, N.pow_succ_r'. nia. }
  unfold formatFileSize.
  destruct (N.eqb_spec (m * 1024 ^ i) 0) as [E|_]; [nia|].
  cbv zeta. rewrite Hi. unfold toFixed2. rewrite (hundredths_whole m _ Hd).
  replace (100 * m / 100) with m by (rewrite N.mul_comm, N.div_mul; lia).
  replace ((100 * m) mod 100) with 0
    by (rewrite N.mul_comm, N.Div0.mod_mul; reflexivity).
  change (two_digits 0) with "00". change ("." +:+ "00") with ".00".
  rewrite parseFloat_whole. reflexivity.
Qed.

Lemma formatFileSize_whole_units_witness :
  formatFileSize (512 * 1024 ^ 2) = decimal 512 +:+ " " +:+ sizes_at 2.
Proof. apply formatFileSize_whole_units; lia. Defined.

Lemma sizes_at_unit (n : N) :
  0 < n -> sizes_at (floor_log 1024 n) = unit_of n.
Proof.
  intros Hn. unfold unit_of.
  destruct (N.ltb_spec n 1024) as [H1|H1].
  { rewrite (floor_log_unique n 0); [reflexivity|]. cbn. lia. }
  destruct (N.ltb_spec n (1024 ^ 2)) as [H2|H2].
  { rewrite (floor_log_unique n 1); [reflexivity|]. cbn in *. lia. }
  destruct (N.ltb_spec n (1024 ^ 3)) as [H3|H3].
  { rewrite (floor_log_unique n 2); [reflexivity|]. cbn in *. lia. }
  destruct (N.ltb_spec n (1024 ^ 4)) as [H4|H4].
  { rewrite (floor_log_unique n 3); [reflexivity|]. cbn in *. lia. }
  destruct (floor_log_spec n Hn) as [_ Khi].
  set (j := floor_log 1024 n) in *.
  assert (Hj : 4 <= j).
  { destruct (N.le_gt_cases 4 j) as [Hle|Hgt]; [exact Hle|exfalso].
    assert (1024 ^ (j + 1) <= 1024 ^ 4)
      by (apply N.pow_le_mono_r; lia). lia. }
  unfold sizes_at. apply nth_overflow. cbn [length sizes]. lia.
Qed.

(** X2: what is printed for a size below 2^49, number and unit: the size
    divided by 1, 1024, 1024^2 or 1024^3 and the unit [Bytes], [KB], [MB]
    or [GB], by the magnitude alone; and from 1024^4 bytes on, where no
    unit is left, the size divided by 1024^4 and the word [undefined] in
    the unit's place.  (Up to 2^49 the rounded logarithms of the source
    give the exact index; close to 2^50 they no longer do.) *)
Theorem formatFileSize_unit (n : N) (Hn : 0 < n < 2 ^ 49) :
  let shown d := parseFloat_to_string (toFixed2 n d) in
  formatFileSize n
  = if n <? 1024 then shown 1 +:+ " Bytes"
    else if n <? 1024 ^ 2 then shown 1024 +:+ " KB"
    else if n <? 1024 ^ 3 then shown (1024 ^ 2) +:+ " MB"
    else if n <? 1024 ^ 4 then shown (1024 ^ 3) +:+ " GB"
    else shown (1024 ^ 4) +:+ " undefined".
Proof.
  destruct Hn as [Hn Hhi]. intros shown. subst shown.
  unfold formatFileSize. destruct (N.eqb_spec n 0) as [E|_]; [lia|].
  cbv zeta.
  destruct (N.ltb_spec n 1024) as [H1|H1].
  { rewrite (floor_log_unique n 0); [reflexivity|]. cbn. lia. }
  destruct (N.ltb_spec n (1024 ^ 2)) as [H2|H2].
  { rewrite (floor_log_unique n 1); [reflexivity|]. cbn in *. lia. }
  destruct (N.ltb_spec n (1024 ^ 3)) as [H3|H3].
  { rewrite (floor_log_unique n 2); [reflexivity|]. cbn in *. lia. }
  destruct (N.ltb_spec n (1024 ^ 4)) as [H4|H4].
  { rewrite (floor_log_unique n 3); [reflexivity|]. cbn in *. lia. }
  rewrite (floor_log_unique n 4); [reflexivity|]. cbn in *. lia.
Qed.

Lemma formatFileSize_unit_witness :
  formatFileSize (1024 ^ 4 + 7) = "1 undefined"
  /\ formatFileSize (3 * 1024 ^ 4 + 2 ^ 39) = "3.5 undefined".
Proof.
  split.
  - exact (formatFileSize_unit (1024 ^ 4 + 7) (conj eq_refl eq_refl)).
  - exact (formatFileSize_unit (3 * 1024 ^ 4 + 2 ^ 39)
             (conj eq_refl eq_refl)).
Defined.

(** X3: for a size below 1024^4, where there is a unit, the number printed
    is the size in its unit rounded to hundredths, and it lies between 1
    and 1024, both included: a size just below the next unit is printed as
    1024 of the unit it is in. *)
Theorem formatFileSize_number_range (n : N) (Hn : 0 < n < 1024 ^ 4) :
  let d := 1024 ^ floor_log 1024 n in
  let q := hundredths n d in
  100 <= q <= 102400
  /\ 2 * q * d <= 200 * n + d < 2 * (q + 1) * d
  /\ formatFileSize n
     = parseFloat_to_string
         (decimal (q / 100) +:+ "." +:+ two_digits (q mod 100))
       +:+ " " +:+ unit_of n.
Proof.
  destruct Hn as [Hn _].
  intros d q. destruct (floor_log_spec n Hn) as [Klo Khi].
  rewrite N.add_1_r, N.pow_succ_r' in Khi. fold d in Klo, Khi.
  assert (Hd : 0 < d).
  { subst d. pose proof (N.pow_nonzero 1024 (floor_log 1024 n) ltac:(lia)).
    lia. }
  destruct (hundredths_nearest n d Hd) as [Qlo Qhi]. fold q in Qlo, Qhi.
  split; [split; nia|]. split; [split; assumption|].
  unfold formatFileSize. destruct (N.eqb_spec n 0) as [E|_]; [lia|].
  cbv zeta. rewrite (sizes_at_unit n Hn). reflexivity.
Qed.

Lemma formatFileSize_number_range_witness :
  100 <= hundredths 1048575 (1024 ^ floor_log 1024 1048575) <= 102400.
Proof.
  exact (proj1 (formatFileSize_number_range 1048575
                  (conj eq_refl eq_refl))).
Defined.

End FormatAll.

(** ** What one run of [sendWebhook] does to the outside *)

Section RunLog.

Context {JsonValue : Type} (JSON_parse : list N -> option JsonValue).

(** The log of a run, path by path. *)
Lemma run_log (net : network) (s : State JsonValue) :
  snd (run_sendWebhook JSON_parse net s)
  = match JsString.truthy (webhookUrl s), selectedFile s with
    | true, Some file =>
        [ESetIsLoading true; sent s file]
        ++ match net (webhookUrl s) [("file", file)] with
           | None => [EToast failure_toast; EConsoleError]
           | Some res =>
               if isFile_of (contentType_of res) then
                 [EBlob;
                  ESetResponse (assembled res (DBlob (res_body res))
                                          (fileName_of res));
                  EToast (success_toast (res_status res))]
               else if JsString.includes (contentType_of res) "json" then
                 match JSON_parse (Utf8.decode (res_body res)) with
                 | Some v =>
                     [EJson; ESetResponse (assembled res (DJson v) "");
                      EToast (success_toast (res_status res))]
                 | None => [EJson; EToast failure_toast; EConsoleError]
                 end
               else
                 [EText;
                  ESetResponse
                    (assembled res (DText (Utf8.decode (res_body res))) "");
                  EToast (success_toast (res_status res))]
           end
        ++ [ESetIsLoading false]
    | _, _ => [EToast validation_toast]
    end.
Proof.
  destruct (JsString.truthy (webhookUrl s)) eqn:Hurl;
    [|rewrite run_invalid by (left; exact Hurl); reflexivity].
  destruct (selectedFile s) as [file|] eqn:Hfile;
    [|rewrite run_invalid by (right; exact Hfile); reflexivity].
  destruct (net (webhookUrl s) [("file", file)]) as [res|] eqn:Hnet;
    [|rewrite (run_rejected JSON_parse net s file Hurl Hfile Hnet);
      reflexivity].
  destruct (isFile_of (contentType_of res)) eqn:Hbin;
    [rewrite (run_binary JSON_parse net s file Hurl Hfile res Hnet Hbin);
     reflexivity|].
  destruct (JsString.includes (contentType_of res) "json") eqn:Hjson;
    [|rewrite (run_text JSON_parse net s file Hurl Hfile res Hnet Hbin Hjson);
      reflexivity].
  destruct (JSON_parse (Utf8.decode (res_body res))) as [v|] eqn:Hparse.
  - rewrite (run_json_parsed JSON_parse net s file Hurl Hfile res Hnet v
               Hbin Hjson Hparse). reflexivity.
  - rewrite (run_json_invalid JSON_parse net s file Hurl Hfile res Hnet
               Hbin Hjson Hparse). reflexivity.
Qed.

Ltac run_cases net s :=
  rewrite (run_log net s);
  destruct (JsString.truthy (webhookUrl s)) eqn:?Hurl;
  [destruct (selectedFile s) as [?file|] eqn:?Hfile;
   [destruct (net (webhookUrl s) [("file", file)]) as [?res|] eqn:?Hnet;
    [destruct (isFile_of (contentType_of res)) eqn:?Hbin;
     [|destruct (JsString.includes (contentType_of res) "json") eqn:?Hjson;
       [destruct (JSON_parse (Utf8.decode (res_body res))) as [?v|]
          eqn:?Hparse|]]|]|]|].

(** X4: every run of the handler shows exactly one toast: the validation
    notice, the failure notice, or the success notice. *)
Theorem one_toast_per_run (net : network) (s : State JsonValue) :
  exists t, toasts (snd (run_sendWebhook JSON_parse net s)) = [t]
            /\ (t = validation_toast \/ t = failure_toast
                \/ exists st, t = success_toast st).
Proof.
  run_cases net s; eexists; (split; [reflexivity|]); eauto.
Qed.

(** X5: a run sends at most one request, and only for a complete form: a
    POST to the URL in the field, whose body is the one part [file] with
    the selected file.  It is sent after the loading flag is set, and
    clearing the flag is the last thing the run does. *)
Theorem one_request_per_run (net : network) (s : State JsonValue) :
  let log := snd (run_sendWebhook JSON_parse net s) in
  match JsString.truthy (webhookUrl s), selectedFile s with
  | true, Some file =>
      requests log = [(webhookUrl s, "POST", [("file", file)])]
      /\ exists rest,
           log = ESetIsLoading true
                 :: EFetch (webhookUrl s) "POST" [("file", file)]
                 :: rest ++ [ESetIsLoading false]
           /\ requests rest = []
           /\ forall b, ~ In (ESetIsLoading b) rest
  | _, _ => requests log = [] /\ forall b, ~ In (ESetIsLoading b) log
  end.
Proof.
  intros log. subst log. run_cases net s;
    try (split; [reflexivity|]; intros b; log_mem);
    (split; [reflexivity|]); eexists; (split; [reflexivity|]);
    (split; [reflexivity|]); intros b; log_mem.
Qed.

(** X6: the body of a response is read exactly once, by exactly one of
    [blob], [json] and [text]; when there is no response no body is read. *)
Theorem body_read_once (net : network) (s : State JsonValue) :
  body_reads (snd (run_sendWebhook JSON_parse net s))
  = match JsString.truthy (webhookUrl s), selectedFile s with
    | true, Some file =>
        match net (webhookUrl s) [("file", file)] with
        | Some _ => 1
        | None => 0
        end
    | _, _ => 0
    end.
Proof. run_cases net s; reflexivity. Qed.

End RunLog.

(** ** Results, the download button, and the events *)

Section Results.

Context {JsonValue : Type} (JSON_parse : list N -> option JsonValue).


Lemma stored_for_coherent (outcome : option Response)
    (r : WebhookResponse JsonValue) :
  stored_for JSON_parse outcome = Some r -> coherent r.
Proof.
  unfold stored_for, coherent. destruct outcome as [res|]; [|discriminate].
  destruct (isFile_of (contentType_of res)) eqn:Hbin.
  { intros E. injection E as <-. cbn. rewrite Hbin.
    repeat split; eauto; discriminate. }
  destruct (JsString.includes (contentType_of res) "json").
  - destruct (JSON_parse (Utf8.decode (res_body res))); [|discriminate].
    intros E. injection E as <-. cbn. rewrite Hbin.
    repeat split; try discriminate; try reflexivity.
    intros [b Hb]. discriminate Hb.
  - intros E. injection E as <-. cbn. rewrite Hbin.
    repeat split; try discriminate; try reflexivity.
    intros [b Hb]. discriminate Hb.
Qed.

(** What one event does to the result and to the selected file. *)
Lemma step_response (e : event) (s : State JsonValue) :
  response (step JSON_parse e s) = response s
  \/ exists outcome r,
       stored_for JSON_parse outcome = Some r
       /\ response (step JSON_parse e s) = Some r.
Proof.
  destruct e as [u| | |files|files|net]; cbn [step]; try (left; reflexivity).
  - left. unfold handleDrop. destruct files; reflexivity.
  - left. unfold handleFileSelect. destruct files as [[|f fs]|]; reflexivity.
  - unfold click. destruct (disabled s); [left; reflexivity|].
    rewrite run_state.
    destruct (JsString.truthy (webhookUrl s)); [|left; reflexivity].
    destruct (selectedFile s) as [file|]; [|left; reflexivity].
    destruct (stored_for JSON_parse (net (webhookUrl s) [("file", file)]))
      as [r|] eqn:E; [right; eauto|left; reflexivity].
Qed.

Lemma step_selectedFile (e : event) (s : State JsonValue) :
  selectedFile (step JSON_parse e s) = selectedFile s
  \/ exists f, selectedFile (step JSON_parse e s) = Some f.
Proof.
  destruct e as [u| | |files|files|net]; cbn [step]; try (left; reflexivity).
  - unfold handleDrop. destruct files; [left; reflexivity|right; eauto].
  - unfold handleFileSelect.
    destruct files as [[|f fs]|]; [left; reflexivity|right; eauto
                                  |left; reflexivity].
  - left. unfold click. destruct (disabled s); [reflexivity|].
    apply run_inputs.
Qed.

(** The results of the states reached with runs in one step are
    coherent. *)
Lemma reachable_coherent (s : State JsonValue) :
  reachable JSON_parse s ->
  forall r, response s = Some r -> coherent r.
Proof.
  induction 1 as [|e s Hs IH]; intros r Hr; [discriminate Hr|].
  destruct (step_response e s) as [Hsame|(outcome & r' & Hst & Hnew)].
  - apply IH. rewrite <- Hsame. exact Hr.
  - rewrite Hnew in Hr. injection Hr as <-.
    exact (stored_for_coherent outcome r' Hst).
Qed.

(** X8: every result the component ever shows, also while a request is
    outstanding, is coherent: its [isFile] is the classification of its
    stored content type, its data is a [Blob] exactly when [isFile] is
    set, and a result that is not a file has no file name. *)
Theorem shown_result_coherent (m : Mounted)
    (Hreach : mounted_reachable JSON_parse m)
    (r : WebhookResponse JsonValue)
    (Hshown : response (comp m) = Some r) :
  coherent r.
Proof.
  pose proof (mounted_reachable_atomic JSON_parse m Hreach) as Hat.
  destruct (pending m) as [rq|].
  - specialize (Hat None). rewrite complete_eq in Hat. cbn [stored_for] in Hat.
    apply (reachable_coherent _ Hat). exact Hshown.
  - apply (reachable_coherent _ Hat). exact Hshown.
Qed.

(** X9: whenever the result panel offers the download button, the save
    action has a file to save: it is handed the blob of the result under a
    name that is not empty; and it saves nothing when the button is not
    offered. *)
Theorem offered_download_saves (s : State JsonValue)
    (Hreach : reachable JSON_parse s) :
  (download_offered s = true ->
   exists r name b,
     response s = Some r /\ data r = DBlob b
     /\ downloadFile s = Some (name, b) /\ name <> "")
  /\ (download_offered s = false -> downloadFile s = None).
Proof.
  unfold download_offered, downloadFile. split.
  - destruct (response s) as [r|] eqn:Hr; [|discriminate]. intros Hfile.
    destruct (reachable_coherent s Hreach r Hr) as (_ & Hblob & _).
    destruct (proj1 Hblob Hfile) as [b Hb]. rewrite Hfile, Hb.
    exists r, (shown_fileName r), b.
    split; [reflexivity|]. split; [exact Hb|]. split; [reflexivity|].
    unfold shown_fileName, JsString.or_else.
    destruct (fileName r); cbn [JsString.truthy]; discriminate.
  - destruct (response s) as [r|]; [|reflexivity]. intros ->. reflexivity.
Qed.

(** X10: a click on the submit button never brings up the validation
    notice: on a disabled button it does nothing at all, and on an enabled
    one the form is complete, so the run sends its one request. *)
Theorem click_never_validation_notice (net : network) (s : State JsonValue) :
  let out := click JSON_parse net s in
  ~ In validation_toast (toasts (snd out))
  /\ (disabled s = true -> out = (s, []))
  /\ (disabled s = false ->
      exists file,
        selectedFile s = Some file
        /\ requests (snd out) = [(webhookUrl s, "POST", [("file", file)])]).
Proof.
  intros out. subst out. unfold click.
  destruct (disabled s) eqn:Hd.
  { split; [intros []|]. split; [reflexivity|discriminate]. }
  unfold disabled in Hd. rewrite !orb_false_iff, negb_false_iff in Hd.
  destruct Hd as [[Hurl Hsel] _].
  destruct (selectedFile s) as [file|] eqn:Hfile; [|discriminate].
  rewrite (run_log JSON_parse net s), Hurl, Hfile.
  split; [|split; [discriminate|]].
  - destruct (net (webhookUrl s) [("file", file)]) as [res|];
      [destruct (isFile_of (contentType_of res));
       [|destruct (JsString.includes (contentType_of res) "json");
         [destruct (JSON_parse (Utf8.decode (res_body res)))|]]|];
      cbn; intros [H|[]]; discriminate H.
  - intros _. exists file. split; [reflexivity|].
    destruct (net (webhookUrl s) [("file", file)]) as [res|];
      [destruct (isFile_of (contentType_of res));
       [|destruct (JsString.includes (contentType_of res) "json");
         [destruct (JSON_parse (Utf8.decode (res_body res)))|]]|];
      reflexivity.
Qed.

(** X11: nothing the user or the network does clears the selected file or
    the shown result: once a file is selected some file stays selected,
    and once a result is shown some result stays shown, through every
    sequence of events. *)
Theorem never_cleared (es : list event) (s : State JsonValue) :
  (selectedFile s <> None ->
   selectedFile (run_events JSON_parse es s) <> None)
  /\ (response s <> None -> response (run_events JSON_parse es s) <> None).
Proof.
  revert s. induction es as [|e es IH]; intros s; [split; auto|].
  cbn [run_events fold_left]. fold (run_events JSON_parse es).
  destruct (IH (step JSON_parse e s)) as [IHf IHr]. split; intros H.
  - apply IHf. destruct (step_selectedFile e s) as [-> |[f ->]];
      [exact H|discriminate].
  - apply IHr.
    destruct (step_response e s) as [-> |(outcome & r & _ & ->)];
      [exact H|discriminate].
Qed.

End Results.


Lemma scenario_filled_reachable :
  reachable Sample.parse_literal Scenario.filled.
Proof. do 2 apply reach_step. apply reach_initial. Qed.

Lemma scenario_after_pdf_reachable :
  reachable Sample.parse_literal Scenario.after_pdf.
Proof. apply reach_step, scenario_filled_reachable. Qed.

Lemma scenario_mounted_reachable :
  mounted_reachable Sample.parse_literal Scenario.mounted_after_pdf.
Proof.
  do 2 apply mounted_occur.
  change (mkMounted Scenario.filled None)
    with (occur Sample.parse_literal
            (User (FileSelect (Some [Sample.file])))
            (occur Sample.parse_literal
               (User (UrlChange "https://example.test/hook"))
               (mkMounted initial None))).
  do 2 apply mounted_occur. apply mounted_initial.
Qed.

Lemma shown_result_coherent_witness :
  exists r, response (comp Scenario.mounted_after_pdf) = Some r /\ coherent r.
Proof.
  eexists. split; [reflexivity|].
  apply (shown_result_coherent Sample.parse_literal
           Scenario.mounted_after_pdf scenario_mounted_reachable).
  reflexivity.
Defined.

Lemma offered_download_saves_witness :
  exists r name b,
    response Scenario.after_pdf = Some r /\ data r = DBlob b
    /\ downloadFile Scenario.after_pdf = Some (name, b) /\ name <> "".
Proof.
  apply (proj1 (offered_download_saves Sample.parse_literal
                  Scenario.after_pdf scenario_after_pdf_reachable)).
  reflexivity.
Defined.

(** ** The collected headers, key by key *)

Section CollectedExact.

Lemma last_value_fold_In (k v : string) (h : Headers.t) :
  forall o,
    fold_left (fun acc kv => if String.eqb (fst kv) k then Some (snd kv) else acc)
              h o = Some v ->
    In (k, v) h \/ o = Some v.
Proof.
  induction h as [|[k' v'] h IH]; intros o Ho; [right; exact Ho|].
  cbn [fold_left fst snd] in Ho. destruct (IH _ Ho) as [Hin|Hacc].
  - left. right. exact Hin.
  - destruct (String.eqb_spec k' k) as [->|_]; [|right; exact Hacc].
    injection Hacc as ->. left. left. reflexivity.
Qed.

Lemma last_value_In (k v : string) (h : Headers.t) :
  Headers.last_value k h = Some v -> In (k, v) h.
Proof.
  intros H. destruct (last_value_fold_In k v h None H) as [Hin|Hn];
    [exact Hin|discriminate].
Qed.

Lemma last_value_of_member (k v : string) (h : Headers.t) :
  In (k, v) h -> exists v', Headers.last_value k h = Some v'.
Proof.
  intros Hin. apply in_split in Hin as (h1 & h2 & ->).
  rewrite last_value_app.
  destruct (Headers.last_value k ((k, v) :: h2)) as [v'|] eqn:E; [eauto|].
  exfalso. change ((k, v) :: h2) with ([(k, v)] ++ h2) in E.
  rewrite last_value_app in E.
  destruct (Headers.last_value k h2); [discriminate|].
  unfold Headers.last_value in E. cbn in E. rewrite String.eqb_refl in E.
  discriminate.
Qed.

Lemma names_distinct_value (k v v' : string) (h : Headers.t) :
  NoDup (map fst h) -> In (k, v) h -> In (k, v') h -> v = v'.
Proof.
  induction h as [|[k0 v0] h IH]; intros Hnd Hv Hv'; [contradiction|].
  cbn [map fst] in Hnd. apply NoDup_cons in Hnd as [Hk0 Hnd].
  assert (Hname : forall w, In (k0, w) h -> False).
  { intros w Hw. apply Hk0. apply list_elem_of_In.
    apply (in_map fst) in Hw. exact Hw. }
  destruct Hv as [Ev|Hv], Hv' as [Ev'|Hv'].
  - congruence.
  - injection Ev as -> ->. destruct (Hname _ Hv').
  - injection Ev' as -> ->. destruct (Hname _ Hv).
  - exact (IH Hnd Hv Hv').
Qed.

(** With distinct names, the collected object holds a header's value
    under its name exactly for the headers there are, [__proto__] apart. *)
Lemma collect_headers_distinct (h : Headers.t) (k v : string) :
  NoDup (map fst h) ->
  collect_headers h !! k = Some v <-> In (k, v) h /\ k <> "__proto__".
Proof.
  intros Hnd. rewrite collect_headers_lookup.
  destruct (String.eqb_spec k "__proto__") as [E|Hk].
  - split; [discriminate|]. intros [_ H]. contradiction.
  - split.
    + intros H. split; [apply last_value_In, H|exact Hk].
    + intros [Hin _]. destruct (last_value_of_member k v h Hin) as [v' Hv'].
      rewrite Hv'. f_equal.
      exact (names_distinct_value k v' v h Hnd (last_value_In _ _ _ Hv') Hin).
Qed.

(** X12: the collected object holds nothing the response did not carry:
    whatever it has under a key is the value of a header of that name, and
    no key is [__proto__]. *)
Theorem collected_from_headers (h : Headers.t) (k v : string)
    (Hheld : collect_headers h !! k = Some v) :
  In (k, v) h /\ k <> "__proto__".
Proof.
  rewrite collect_headers_lookup in Hheld.
  destruct (String.eqb_spec k "__proto__") as [E|Hk]; [discriminate|].
  split; [apply last_value_In, Hheld|exact Hk].
Qed.

(** X13: when the header names are distinct, looking a name up in the
    collected object gives a value exactly when the response has that
    header with that value, [__proto__] apart; and when no header is named
    [__proto__] the object has as many entries as the response has
    headers. *)
Theorem collected_exact (h : Headers.t) (Hnd : NoDup (map fst h)) :
  (forall k v,
     collect_headers h !! k = Some v <-> In (k, v) h /\ k <> "__proto__")
  /\ (~ In "__proto__" (map fst h) ->
      size (collect_headers h) = length h).
Proof.
  split; [intros k v; apply collect_headers_distinct, Hnd|].
  intros Hproto.
  assert (E : collect_headers h = list_to_map h).
  { apply map_eq. intros k. apply option_eq. intros v.
    rewrite (collect_headers_distinct h k v Hnd).
    rewrite <- (elem_of_list_to_map h k v) by exact Hnd.
    rewrite list_elem_of_In. split; [tauto|]. intros Hin.
    split; [exact Hin|]. intros ->. apply Hproto.
    apply (in_map fst) in Hin. exact Hin. }
  rewrite E. apply map_size_list_to_map. exact Hnd.
Qed.

End CollectedExact.

Lemma collected_from_headers_witness :
  In ("server", "x") Scenario.two_headers /\ "server" <> "__proto__".
Proof.
  apply (collected_from_headers Scenario.two_headers "server" "x").
  rewrite collect_headers_lookup. reflexivity.
Defined.

Lemma scenario_two_headers_distinct : NoDup (map fst Scenario.two_headers).
Proof.
  cbn. repeat constructor; rewrite ?list_elem_of_In; cbn;
    intuition discriminate.
Qed.

Lemma collected_exact_witness :
  size (collect_headers Scenario.two_headers) = length Scenario.two_headers.
Proof.
  apply (proj2 (collected_exact Scenario.two_headers
                  scenario_two_headers_distinct)).
  cbn. intuition discriminate.
Defined.

(** ** More on the file name *)

Section FileNameMore.
Import RegExp.

Context {JsonValue : Type} (JSON_parse : list N -> option JsonValue).

(** Where [filename=] does not occur the pattern finds nothing. *)
Lemma exec_filename_absent (d : string) :
  JsString.includes d "filename=" = false -> exec filename_re d = None.
Proof.
  induction d as [|c d IH]; intros H.
  - reflexivity.
  - rewrite includes_cons in H.
    destruct (JsString.startsWith (String c d) "filename=") eqn:Hs;
      [discriminate|].
    cbn [exec]. rewrite (run_filename_fail _ _ Hs). exact (IH H).
Qed.

(** X15: a binary response whose [content-disposition] header has a value
    but no [filename=] in it, such as [inline], is stored under the name
    [download], and saved under it. *)
Theorem no_filename_parameter_gives_download
    (net : network) (s : State JsonValue) (file : File) (res : Response)
    (d : string)
    (Hurl : JsString.truthy (webhookUrl s) = true)
    (Hfile : selectedFile s = Some file)
    (Hnet : net (webhookUrl s) [("file", file)] = Some res)
    (Hbin : isFile_of (contentType_of res) = true)
    (Hget : Headers.get (res_headers res) "content-disposition" = Some d)
    (Hd : d <> "")
    (Habsent : JsString.includes d "filename=" = false) :
  let out := run_sendWebhook JSON_parse net s in
  exists r,
    response (fst out) = Some r /\ fileName r = "download"
    /\ downloadFile (fst out) = Some ("download", res_body res).
Proof.
  intros out. subst out.
  rewrite (run_binary JSON_parse net s file Hurl Hfile res Hnet Hbin).
  assert (Hname : fileName_of res = "download").
  { unfold fileName_of. rewrite Hget, (truthy_nonempty d Hd),
      (exec_filename_absent d Habsent). reflexivity. }
  eexists. split; [reflexivity|]. unfold downloadFile, shown_fileName.
  cbn [fst resolved with_isLoading with_response response assembled
       fileName isFile data].
  rewrite Hbin, Hname. split; reflexivity.
Qed.

Lemma quote_free_cons_intro (c : ascii) (pre : string) :
  Ascii.eqb quote c = false ->
  JsString.includes pre (String quote "") = false ->
  JsString.includes (String c pre) (String quote "") = false.
Proof.
  intros Hc Hpre. rewrite includes_cons. cbn [JsString.startsWith].
  rewrite Hc. exact Hpre.
Qed.

(** What the greedy [+] over characters other than the quote has taken is
    free of quotes, however far it has backed off. *)
Lemma plus_notquote_prefix (fuel : nat) :
  forall s caps,
    List.Forall
      (fun res => exists pre,
           s = pre +:+ fst res
           /\ JsString.includes pre (String quote "") = false)
      (plus_loop (run (NotChar quote)) fuel s caps).
Proof.
  induction fuel as [|fuel IH]; intros s caps; rewrite plus_loop_eq;
    apply Forall_flat_map; cbn [run];
    (destruct s as [|d s]; [constructor|]);
    (destruct (Ascii.eqb quote d) eqn:Hq; [constructor|]);
    (constructor; [|constructor]);
    assert (Hhere : List.Forall
              (fun res : string * captures =>
                 exists pre, String d s = pre +:+ fst res
                   /\ JsString.includes pre (String quote "") = false)
              [(s, caps)])
      by (constructor; [|constructor]; exists (String d ""); split;
          [reflexivity|apply quote_free_cons_intro; [exact Hq|reflexivity]]).
  - exact Hhere.
  - destruct (Nat.ltb (String.length s) (String.length (String d s)));
      [|exact Hhere].
    apply Forall_app. split; [|exact Hhere].
    eapply Forall_impl; [apply IH|].
    intros [s1 c1] (pre & Hs & Hpre). cbn [fst] in *.
    exists (String d pre). split; [rewrite Hs; reflexivity|].
    apply quote_free_cons_intro; assumption.
Qed.

Lemma run_filename_quote_free (s : string) (caps : captures) :
  List.Forall
    (fun res => exists name,
         snd res = (1, name) :: caps
         /\ JsString.includes name (String quote "") = false)
    (run filename_re s caps).
Proof.
  unfold filename_re. rewrite run_Cat. apply Forall_flat_map.
  eapply Forall_impl; [apply run_lits_caps|].
  intros [s1 c1] Hc. cbn [snd] in Hc. subst c1.
  rewrite run_Cat. apply Forall_flat_map.
  eapply Forall_impl; [apply run_opt_quote_caps|].
  intros [s2 c2] Hc. cbn [snd] in Hc. subst c2.
  rewrite run_Cat. apply Forall_flat_map.
  rewrite run_Group, run_Plus. apply Forall_map.
  pose proof (plus_notquote_results (String.length s2) s2 caps) as Hcaps.
  pose proof (plus_notquote_prefix (String.length s2) s2 caps) as Hpre.
  revert Hcaps Hpre.
  generalize (plus_loop (run (NotChar quote)) (String.length s2) s2 caps).
  intros l Hcaps Hpre. induction l as [|[s3 c3] l IHl]; [constructor|].
  inversion Hcaps as [|? ? [Hc _] Hcaps']. inversion Hpre as [|? ? Hp Hpre'].
  subst. cbn [fst snd] in *. constructor; [|exact (IHl Hcaps' Hpre')].
  destruct Hp as (pre & Hs & Hq).
  eapply Forall_impl; [apply run_opt_quote_caps|].
  intros [s4 c4] Hc4. cbn [snd] in Hc4. subst c4.
  exists pre. split; [|exact Hq]. rewrite Hs, consumed_append. reflexivity.
Qed.

Lemma exec_filename_quote_free (s : string) (m : captures) (name : string) :
  exec filename_re s = Some m -> capture 1 m = Some name ->
  JsString.includes name (String quote "") = false.
Proof.
  assert (Hhead : forall s',
            match run filename_re s' [] with
            | (_, m') :: _ =>
                forall name', capture 1 m' = Some name' ->
                  JsString.includes name' (String quote "") = false
            | [] => True
            end).
  { intros s'. pose proof (run_filename_quote_free s' []) as Hr.
    destruct (run filename_re s' []) as [|[s1 m'] l]; [exact I|].
    inversion Hr as [|? ? (name' & Hn & Hq) _]. cbn [snd] in Hn. subst m'.
    intros name'' E. cbn in E. injection E as <-. exact Hq. }
  induction s as [|c s IH]; cbn [exec].
  - specialize (Hhead "").
    destruct (run filename_re "" []) as [|[s1 m'] l]; [discriminate|].
    intros E. injection E as <-. apply Hhead.
  - specialize (Hhead (String c s)).
    destruct (run filename_re (String c s) []) as [|[s1 m'] l]; [exact IH|].
    intros E. injection E as <-. apply Hhead.
Qed.

Lemma fileName_of_quote_free (res : Response) :
  JsString.includes (fileName_of res) (String quote "") = false.
Proof.
  unfold fileName_of.
  destruct (Headers.get (res_headers res) "content-disposition") as [d|];
    [|reflexivity].
  destruct (JsString.truthy d); [|reflexivity].
  destruct (exec filename_re d) as [m|] eqn:E; [|reflexivity].
  destruct (capture 1 m) as [name|] eqn:Ec; [|reflexivity].
  exact (exec_filename_quote_free d m name E Ec).
Qed.

(** X16: no stored file name has a double quote in it, whatever the
    response: the pattern's group stops in front of one, and the two other
    names, the empty one and [download], have none. *)
Theorem stored_name_has_no_quote
    (net : network) (s : State JsonValue) (r : WebhookResponse JsonValue)
    (Hstored : In (ESetResponse r) (snd (run_sendWebhook JSON_parse net s))) :
  JsString.includes (fileName r) (String quote "") = false.
Proof.
  rewrite (run_log JSON_parse net s) in Hstored.
  destruct (JsString.truthy (webhookUrl s));
    [|cbn in Hstored; destruct Hstored as [H|[]]; discriminate H].
  destruct (selectedFile s) as [file|];
    [|cbn in Hstored; destruct Hstored as [H|[]]; discriminate H].
  destruct (net (webhookUrl s) [("file", file)]) as [res|];
    [destruct (isFile_of (contentType_of res));
     [|destruct (JsString.includes (contentType_of res) "json");
       [destruct (JSON_parse (Utf8.decode (res_body res)))|]]|];
    cbn [app In] in Hstored;
    repeat (destruct Hstored as [Hstored|Hstored];
            try discriminate Hstored);
    try contradiction;
    injection Hstored as <-; cbn [fileName assembled];
    first [apply fileName_of_quote_free | reflexivity].
Qed.

End FileNameMore.

Lemma no_filename_parameter_gives_download_witness :
  exists r,
    response (fst (run_sendWebhook Sample.parse_literal
                     (Sample.answers Scenario.inline_only) Sample.ready))
    = Some r
    /\ fileName r = "download"
    /\ downloadFile
         (fst (run_sendWebhook Sample.parse_literal
                 (Sample.answers Scenario.inline_only) Sample.ready))
       = Some ("download", res_body Scenario.inline_only).
Proof.
  apply (no_filename_parameter_gives_download Sample.parse_literal
           (Sample.answers Scenario.inline_only) Sample.ready Sample.file
           Scenario.inline_only "inline" eq_refl eq_refl eq_refl eq_refl
           eq_refl);
    [discriminate|reflexivity].
Defined.

Lemma stored_name_has_no_quote_witness :
  JsString.includes "report.pdf" (String RegExp.quote "") = false.
Proof.
  apply (stored_name_has_no_quote Sample.parse_literal
           (Sample.answers Sample.pdf) Sample.ready
           (assembled Sample.pdf (DBlob (res_body Sample.pdf)) "report.pdf")).
  cbn. right. right. right. left. reflexivity.
Defined.

(** ** The event loop's view, once more *)

Section OutstandingMore.

Context {JsonValue : Type} (JSON_parse : list N -> option JsonValue).

(** X17: the loading flag is set exactly while a request is outstanding.
    While one is, the submit button is disabled and a click changes
    nothing, so no second request goes out; and when the request settles,
    whatever the outcome, the flag is cleared and nothing is outstanding. *)
Theorem loading_while_outstanding (m : Mounted)
    (Hreach : mounted_reachable JSON_parse m) :
  (isLoading (comp m) = true <-> pending m <> None)
  /\ (pending m <> None ->
      disabled (comp m) = true /\ occur JSON_parse Click m = m)
  /\ (forall outcome,
        pending m <> None ->
        isLoading (comp (occur JSON_parse (Settle outcome) m)) = false
        /\ pending (occur JSON_parse (Settle outcome) m) = None).
Proof.
  pose proof (loading_iff_pending JSON_parse m Hreach) as Hl.
  split; [|split].
  - rewrite Hl. destruct (pending m); split; congruence.
  - intros Hp.
    assert (Hd : disabled (comp m) = true).
    { unfold disabled. rewrite Hl.
      destruct (pending m); [apply orb_true_r|congruence]. }
    split; [exact Hd|]. cbn [occur]. rewrite Hd. reflexivity.
  - intros outcome Hp. cbn [occur].
    destruct (pending m) as [rq|]; [|congruence].
    cbn [comp pending]. rewrite complete_eq. split; reflexivity.
Qed.

(** X18: taking a run of the handler as one step and taking it in two
    parts, with other events in between, give the same states in which no
    request is outstanding. *)
Theorem one_step_and_two_parts_agree (s : State JsonValue) :
  reachable JSON_parse s
  <-> mounted_reachable JSON_parse (mkMounted s None).
Proof.
  split.
  - induction 1 as [|e s Hs IH]; [apply mounted_initial|].
    destruct (is_click e) eqn:He.
    + destruct e as [u| | |files|files|net]; try discriminate He.
      cbn [step]. unfold click.
      destruct (disabled s) eqn:Hd; [exact IH|].
      pose proof Hd as Hd'. unfold disabled in Hd'.
      rewrite !orb_false_iff, negb_false_iff in Hd'.
      destruct Hd' as [[Hurl Hsel] _].
      destruct (selectedFile s) as [file|] eqn:Hfile; [|discriminate].
      destruct (begin_complete JSON_parse net s file Hurl Hfile)
        as [Hb Hrun].
      rewrite Hrun.
      pose proof (mounted_occur JSON_parse
                    (Settle (net (webhookUrl s) [("file", file)])) _
                    (mounted_occur JSON_parse Click _ IH)) as Hm.
      cbn [occur comp pending] in Hm. rewrite Hd, Hb in Hm.
      exact Hm.
    + pose proof (mounted_occur JSON_parse (User e) _ IH) as Hm.
      cbn [occur comp pending] in Hm. rewrite He in Hm. exact Hm.
  - intros Hm. exact (mounted_reachable_atomic JSON_parse _ Hm).
Qed.

End OutstandingMore.

Lemma scenario_sending_reachable :
  mounted_reachable Sample.parse_literal Scenario.mounted_sending.
Proof.
  apply mounted_occur.
  change (mkMounted Scenario.filled None)
    with (occur Sample.parse_literal
            (User (FileSelect (Some [Sample.file])))
            (occur Sample.parse_literal
               (User (UrlChange "https://example.test/hook"))
               (mkMounted initial None))).
  do 2 apply mounted_occur. apply mounted_initial.
Qed.

Lemma loading_while_outstanding_witness :
  let m := Scenario.mounted_sending in
  pending m <> None
  /\ isLoading (comp m) = true
  /\ disabled (comp m) = true
  /\ occur Sample.parse_literal Click m = m
  /\ (forall outcome,
        isLoading (comp (occur Sample.parse_literal (Settle outcome) m))
        = false
        /\ pending (occur Sample.parse_literal (Settle outcome) m) = None).
Proof.
  intros m.
  assert (Hp : pending m <> None) by discriminate.
  destruct (loading_while_outstanding Sample.parse_literal m
              scenario_sending_reachable) as [Hl [Hc Hs]].
  split; [exact Hp|]. split; [apply Hl, Hp|].
  destruct (Hc Hp) as [Hd Hsame].
  split; [exact Hd|]. split; [exact Hsame|].
  intros outcome. exact (Hs outcome Hp).
Defined.

(** ** Plain ASCII text *)

Section AsciiText.
Import Utf8.
Local Open Scope N_scope.

Context {JsonValue : Type} (JSON_parse : list N -> option JsonValue).

Lemma decode_from_ascii (body : list byte) :
  is_ascii body = true ->
  map replacement (decode_from dinit (map Byte.to_N body))
  = map Byte.to_N body.
Proof.
  induction body as [|b body IH]; intros H; [reflexivity|].
  cbn [is_ascii forallb] in H. apply andb_true_iff in H as [Hb H].
  apply N.ltb_lt in Hb. cbn [map decode_from].
  unfold handler. cbn [bytes_needed dinit]. change (0 =? 0) with true.
  cbv iota. unfold lead.
  replace (between 0 (Byte.to_N b) 0x7F) with true
    by (symmetry; apply between_spec; lia).
  cbn [map replacement]. rewrite (IH H). reflexivity.
Qed.

Lemma of_scalars_ascii (body : list byte) :
  is_ascii body = true ->
  Utf16.of_scalars (map Byte.to_N body) = map Byte.to_N body.
Proof.
  induction body as [|b body IH]; intros H; [reflexivity|].
  cbn [is_ascii forallb] in H. apply andb_true_iff in H as [Hb H].
  apply N.ltb_lt in Hb. cbn [map].
  change (Utf16.of_scalars (Byte.to_N b :: map Byte.to_N body))
    with (Utf16.of_scalar (Byte.to_N b)
          ++ Utf16.of_scalars (map Byte.to_N body)).
  rewrite (IH H). unfold Utf16.of_scalar.
  destruct (N.ltb_spec (Byte.to_N b) 0x10000); [reflexivity|lia].
Qed.

(** [res.text()] on an ASCII body: one code unit per byte, the byte's own
    number. *)
Lemma decode_ascii (body : list byte) :
  is_ascii body = true -> decode body = map Byte.to_N body.
Proof.
  intros H. unfold decode, decode_N, decode_items, strip_bom.
  destruct (ascii_valid body H) as [_ Hb]. unfold starts_with_bom in Hb.
  rewrite Hb, (decode_from_ascii body H). apply of_scalars_ascii, H.
Qed.

(** X19: a text response with an ASCII body is stored character for
    character: the text has one character per byte of the body, with the
    byte's code, and it is as long as the body. *)
Theorem ascii_text_stored_as_is
    (net : network) (s : State JsonValue) (file : File) (res : Response)
    (Hurl : JsString.truthy (webhookUrl s) = true)
    (Hfile : selectedFile s = Some file)
    (Hnet : net (webhookUrl s) [("file", file)] = Some res)
    (Hbin : isFile_of (contentType_of res) = false)
    (Hjson : JsString.includes (contentType_of res) "json" = false)
    (Hascii : is_ascii (res_body res) = true) :
  exists r t,
    response (fst (run_sendWebhook JSON_parse net s)) = Some r
    /\ data r = DText t
    /\ t = map Byte.to_N (res_body res)
    /\ length t = length (res_body res).
Proof.
  rewrite (run_text JSON_parse net s file Hurl Hfile res Hnet Hbin Hjson).
  eexists _, _. split; [reflexivity|]. split; [reflexivity|].
  rewrite (decode_ascii _ Hascii). split; [reflexivity|].
  apply length_map.
Qed.

End AsciiText.

Lemma ascii_text_stored_as_is_witness :
  exists r t,
    response (fst (run_sendWebhook Sample.parse_literal
                     (Sample.answers Sample.plain) Sample.ready)) = Some r
    /\ data r = DText t
    /\ t = map Byte.to_N (res_body Sample.plain)
    /\ length t = length (res_body Sample.plain).
Proof.
  exact (ascii_text_stored_as_is Sample.parse_literal
           (Sample.answers Sample.plain) Sample.ready Sample.file
           Sample.plain eq_refl eq_refl eq_refl eq_refl eq_refl eq_refl).
Defined.
